(** * cherry-pancake: store-key resolution, store directory, report
      sections, per-store aggregation and the sales block parser

    A shallow embedding of [app/library/utils.py], [app/routes/costco.py]
    and [app/routes/sales.py].

    Modelling conventions.
    - Python [str] values are [string]s; text is taken to be ASCII, so the
      character classes used by the code ([str.isdigit], [\d], the
      whitespace of [str.strip], [str.lower]) are the ASCII ones.
    - A [dict] whose iteration order no claim depends on is a [gmap]; the
      insertion-ordered dictionaries of the sales parser are association
      lists.
    - The amounts of the payment reports are binary64 floats, with the
      arithmetic of IEEE 754 as [SpecFloat] defines it; what pandas' two
      summing routines compute for a column is left as a parameter.
    - The amounts of the sales sheet are finite values held as exact
      rationals ([Qc]), the two infinities, or NaN.
    - Code that can raise returns a [result]. *)

From Stdlib Require Import Ascii String ZArith QArith Qcanon Lia.
From Stdlib Require SpecFloat.
From stdpp Require Import base strings list gmap fin_maps sorting.

Local Open Scope string_scope.
#[local] Set Warnings "-clear-no-such-hyp".

(** ** Python string primitives *)

Module PyStr.

Definition is_digit (c : ascii) : bool :=
  let n := nat_of_ascii c in (48 <=? n)%nat && (n <=? 57)%nat.

(** [str.isspace] on ASCII: TAB, LF, VT, FF, CR, FS, GS, RS, US and space. *)
Definition is_space (c : ascii) : bool :=
  let n := nat_of_ascii c in
  ((9 <=? n)%nat && (n <=? 13)%nat) || ((28 <=? n)%nat && (n <=? 32)%nat).

Definition is_sign (c : ascii) : bool :=
  Ascii.eqb c "+"%char || Ascii.eqb c "-"%char.

Definition lower_char (c : ascii) : ascii :=
  let n := nat_of_ascii c in
  if (65 <=? n)%nat && (n <=? 90)%nat then ascii_of_nat (n + 32) else c.

Fixpoint lower (s : string) : string :=
  match s with
  | EmptyString => EmptyString
  | String c s' => String (lower_char c) (lower s')
  end.

Fixpoint all_digits (s : string) : bool :=
  match s with
  | EmptyString => true
  | String c s' => is_digit c && all_digits s'
  end.

(** [s.isdigit()]: false on the empty string. *)
Definition isdigit (s : string) : bool :=
  match s with
  | EmptyString => false
  | _ => all_digits s
  end.

Fixpoint char_in (c : ascii) (chars : string) : bool :=
  match chars with
  | EmptyString => false
  | String d chars' => Ascii.eqb c d || char_in c chars'
  end.

(** [s.lstrip(chars)] *)
Fixpoint lstrip (chars s : string) : string :=
  match s with
  | EmptyString => EmptyString
  | String c s' => if char_in c chars then lstrip chars s' else s
  end.

(** [s.rstrip(chars)] *)
Fixpoint rstrip (chars s : string) : string :=
  match s with
  | EmptyString => EmptyString
  | String c s' =>
      match rstrip chars s' with
      | EmptyString => if char_in c chars then EmptyString else String c EmptyString
      | r => String c r
      end
  end.

Fixpoint lstrip_space (s : string) : string :=
  match s with
  | EmptyString => EmptyString
  | String c s' => if is_space c then lstrip_space s' else s
  end.

Fixpoint rstrip_space (s : string) : string :=
  match s with
  | EmptyString => EmptyString
  | String c s' =>
      match rstrip_space s' with
      | EmptyString => if is_space c then EmptyString else String c EmptyString
      | r => String c r
      end
  end.

(** [s.strip()] *)
Definition strip (s : string) : string := rstrip_space (lstrip_space s).

Fixpoint zeros (k : nat) : string :=
  match k with
  | O => EmptyString
  | S k' => String "0"%char (zeros k')
  end.

(** [s.zfill(width)]: pads on the left with zeros, after a leading sign if
    there is one; a string already [width] long or longer is unchanged. *)
Definition zfill (width : nat) (s : string) : string :=
  let pad := zeros (width - String.length s) in
  match s with
  | String c s' => if is_sign c then String c (pad ++ s') else pad ++ s
  | EmptyString => pad
  end.

Fixpoint take (k : nat) (s : string) : string :=
  match k, s with
  | S k', String c s' => String c (take k' s')
  | _, _ => EmptyString
  end.

(** [s[:n]] with Python's slice semantics: a negative [n] counts from the
    end, and the bound is clamped to [0 .. len(s)]. *)
Definition slice_to (n : Z) (s : string) : string :=
  let len := Z.of_nat (String.length s) in
  let stop := if (n <? 0)%Z then Z.max 0 (len + n) else Z.min n len in
  take (Z.to_nat stop) s.

Fixpoint startswith (p s : string) : bool :=
  match p, s with
  | EmptyString, _ => true
  | String a p', String b s' => Ascii.eqb a b && startswith p' s'
  | String _ _, EmptyString => false
  end.

(** [s.split(sep)] for a one-character separator: never empty, and empty
    fields are kept. *)
Fixpoint split (sep : ascii) (s : string) : list string :=
  match s with
  | EmptyString => [EmptyString]
  | String c s' =>
      if Ascii.eqb c sep then EmptyString :: split sep s'
      else match split sep s' with
           | w :: ws => String c w :: ws
           | [] => [String c EmptyString]
           end
  end.

(** [sep.join(parts)] *)
Fixpoint join (sep : string) (parts : list string) : string :=
  match parts with
  | [] => EmptyString
  | [w] => w
  | w :: ws => w ++ sep ++ join sep ws
  end.

(** Longest prefix made of digits. *)
Fixpoint take_digits (s : string) : string :=
  match s with
  | String c s' => if is_digit c then String c (take_digits s') else EmptyString
  | EmptyString => EmptyString
  end.

(** [re.findall(r"\d+", s)]: the maximal digit runs of [s], left to right.
    [inrun] tells that the previous character was a digit, so that the
    current position lies inside a run already reported. *)
Fixpoint findall_from (inrun : bool) (s : string) : list string :=
  match s with
  | EmptyString => []
  | String c s' =>
      if is_digit c then
        if inrun then findall_from true s'
        else take_digits s :: findall_from true s'
      else findall_from false s'
  end.

Definition findall_digits (s : string) : list string := findall_from false s.

End PyStr.

(** ** [app/library/utils.py] *)

Module Utils.
Import PyStr.

(** [k in d] *)
Definition contains (d : gmap string string) (k : string) : bool :=
  bool_decide (is_Some (d !! k)).

(** [d.get(k, default)] *)
Definition dict_get (d : gmap string string) (k default : string) : string :=
  match d !! k with
  | Some v => v
  | None => default
  end.

Definition default_n : Z := (-6)%Z.

Definition extract_key (invoice_num : string) (store_names : gmap string string)
    (n : Z) : string :=
  let z := "0000" in
  if String.eqb invoice_num "" then z
  else
    let res_str := slice_to n invoice_num in
    match findall_digits res_str with
    | [] => z
    | d0 :: _ =>
        let res := zfill 4 (lstrip "0" d0) in
        if negb (contains store_names res) then
          let lres := lstrip "0" res in
          if contains store_names lres then lres
          else
            let rres := zfill 4 (rstrip "0" res) in
            if contains store_names rres then rres else z
        else res
    end.

(** The cell of the mapping table is taken as the text [str(cell)] gives
    (an empty spreadsheet cell reads as the text "nan"). *)
Definition key_formatter (s : string) : string :=
  let s := strip s in
  if String.eqb s "" || String.eqb (lower s) "nan" then "-1"
  else
    let s := if startswith "#" s then lstrip "#" s else s in
    if isdigit s then zfill 4 s else "-1".

(** A [DataFrame] read with [header=None]: the list of its columns, each the
    list of its cells as text. *)
Definition DataFrame : Type := list (list string).

(** What [pd.read_csv(csv_path, header=None)] does for a given path. *)
Inductive read_csv_outcome :=
  | ReadRaises
  | ReadOk (df : DataFrame).

Definition sentinels : gmap string string :=
  <["0000" := "Unknown"]> (<["1997" := "C991997"]> ∅).

(** The loop over [zip(long_col, short_col)]. *)
Definition fill_rows (long_col short_col : list string)
    (store_names : gmap string string) : gmap string string :=
  foldl (λ acc xy,
           let formatted_key := key_formatter xy.2 in
           if String.eqb formatted_key "-1" then acc
           else <[formatted_key := strip xy.1]> acc)
        store_names (zip long_col short_col).

(** [for x, y in missed.items(): store_names[x] = y] *)
Definition add_missed (store_names : gmap string string) : gmap string string :=
  <["0000" := "Unknown"]> (<["1997" := "C991997"]> store_names).

(** [csv_path] is [None] for no path (or an empty one), and otherwise
    carries the outcome of reading that path.  An exception inside the [try]
    block ends in the [except] branch, which returns the two sentinels. *)
Definition get_store_names (csv_path : option read_csv_outcome)
    (df : option DataFrame) : gmap string string :=
  let loaded : option (option DataFrame) :=
    match df, csv_path with
    | None, Some ReadRaises => None
    | None, Some (ReadOk d) => Some (Some d)
    | _, _ => Some df
    end in
  match loaded with
  | None => sentinels
  | Some None => add_missed ∅
  | Some (Some d) =>
      match d with
      | long_col :: _ :: short_col :: _ => add_missed (fill_rows long_col short_col ∅)
      | long_col :: short_col :: _ => add_missed (fill_rows long_col short_col ∅)
      | _ => sentinels
      end
  end.

(** *** The two header regular expressions *)

(** [\d{1,2}] at the end of the pattern, greedy. *)
Definition one_or_two_digits (s : string) : option string :=
  match s with
  | String a (String b _) =>
      if is_digit a
      then Some (if is_digit b then String a (String b EmptyString)
                 else String a EmptyString)
      else None
  | String a EmptyString => if is_digit a then Some (String a EmptyString) else None
  | EmptyString => None
  end.

(** [/\d{1,2}] *)
Definition slash_day (s : string) : option string :=
  match s with
  | String c s' =>
      if Ascii.eqb c "/"%char
      then (λ d, String "/"%char d) <$> one_or_two_digits s'
      else None
  | EmptyString => None
  end.

(** [\d{1,2}/\d{1,2}] anchored at the head of [s]: two digits are tried
    first, one digit on backtracking. *)
Definition match_mm_dd (s : string) : option string :=
  match s with
  | String a s1 =>
      if is_digit a then
        let two :=
          match s1 with
          | String b s2 =>
              if is_digit b then (λ d, String a (String b d)) <$> slash_day s2
              else None
          | EmptyString => None
          end in
        match two with
        | Some m => Some m
        | None => (λ d, String a d) <$> slash_day s1
        end
      else None
  | EmptyString => None
  end.

(** [re.search]: the leftmost position with a match. *)
Fixpoint search_mm_dd (s : string) : option string :=
  match match_mm_dd s with
  | Some m => Some m
  | None =>
      match s with
      | String _ s' => search_mm_dd s'
      | EmptyString => None
      end
  end.

Definition extract_mm_dd (text : string) : bool * option string :=
  match search_mm_dd text with
  | Some g => (true, Some g)
  | None => (false, None)
  end.

(** [#(\d+)] anchored at the head of [s]; the value is group 1. *)
Definition match_payment_id (s : string) : option string :=
  match s with
  | String c s' =>
      if Ascii.eqb c "#"%char then
        match take_digits s' with
        | EmptyString => None
        | g => Some g
        end
      else None
  | EmptyString => None
  end.

Fixpoint search_payment_id (s : string) : option string :=
  match match_payment_id s with
  | Some g => Some g
  | None =>
      match s with
      | String _ s' => search_payment_id s'
      | EmptyString => None
      end
  end.

Definition extract_payment_id (text : string) : bool * option string :=
  match search_payment_id text with
  | Some g => (true, Some g)
  | None => (false, None)
  end.

End Utils.

(** ** Python floats *)

Module Float64.
Import SpecFloat.

(** A Python [float]: an IEEE 754 binary64 value. *)
Definition float64 : Type := spec_float.

Definition prec : Z := 53.
Definition emax : Z := 1024.

Definition zero : float64 := S754_zero false.

(** [a + b] *)
Definition add64 (a b : float64) : float64 := SFadd prec emax a b.

(** [a == b] *)
Definition eqb64 (a b : float64) : bool := SFeqb a b.

(** [float(z)] for an integer below 2^53 in size. *)
Definition of_Z (z : Z) : float64 :=
  match z with
  | Z0 => zero
  | Zpos _ => binary_normalize prec emax z 0 false
  | Zneg _ => binary_normalize prec emax z 0 true
  end.

(** The float a decimal numeral denotes: [decimal 125 2] is [float("1.25")],
    the binary64 value nearest to 125/100. *)
Definition decimal (digits : Z) (places : nat) : float64 :=
  SFdiv prec emax (of_Z digits) (of_Z (10 ^ Z.of_nat places)).

(** The rational a finite float denotes (0 for an infinity and NaN). *)
Definition exact_value (a : float64) : Qc :=
  match a with
  | S754_finite s m e =>
      let q := (inject_Z (Zpos m) * Qpower (2 # 1) e)%Q in
      Q2Qc (if s then Qopp q else q)
  | _ => 0%Qc
  end.

(** The terms added one after the other, from 0.0. *)
Definition seq_sum (values : list float64) : float64 :=
  foldl add64 zero values.

End Float64.

(** ** [app/routes/costco.py] *)

Module Costco.
Import PyStr Utils Float64.

Definition newline : ascii := ascii_of_nat 10.

(** The loop over the lines of the first page (lines 83-92):
    [date_check_num] collects, in the order met, every match of a line that
    starts with "Date" and the first match of a line that starts with
    "Payment", where the loop stops. *)
Fixpoint scan_header (lines : list string) (date_check_num : list string)
    : list string :=
  match lines with
  | [] => date_check_num
  | line :: rest =>
      if startswith "Date" line then
        match extract_mm_dd line with
        | (true, Some res) => scan_header rest (date_check_num ++ [res])
        | _ => scan_header rest date_check_num
        end
      else if startswith "Payment" line then
        match extract_payment_id line with
        | (true, Some res) => date_check_num ++ [res]
        | _ => scan_header rest date_check_num
        end
      else scan_header rest date_check_num
  end.

(** Lines 162-165: the f-string raises [IndexError] on a list shorter than
    two, and the [except] branch takes the uploaded file's name. *)
Definition name_of (date_check_num : list string) (file_filename : string)
    : string :=
  match date_check_num with
  | d0 :: d1 :: _ => d0 ++ " #" ++ d1
  | _ => file_filename
  end.

Definition section_name (first_page_text file_filename : string) : string :=
  name_of (scan_header (split newline first_page_text) []) file_filename.

(** A parsed table row ([file_rows] entry). *)
Record TransactionRow := {
  invoiceNumber : string;
  orderNumber : string;
  description : string;
  date : string;
  amount : float64
}.

(** A row of [df] after the mapping logic. *)
Record ResolvedRow := {
  row : TransactionRow;
  storeKey : string;
  storeName : string
}.

(** Lines 141-146. *)
Definition first_try (store_mapping : gmap string string) (r : TransactionRow)
    : ResolvedRow :=
  let key := extract_key (invoiceNumber r) store_mapping default_n in
  {| row := r; storeKey := key; storeName := dict_get store_mapping key "Unknown" |}.

(** Lines 149-157: the second try on the rows named "Unknown". *)
Definition second_try (store_mapping : gmap string string) (r : ResolvedRow)
    : ResolvedRow :=
  if String.eqb (storeName r) "Unknown" then
    let inv := invoiceNumber (row r) in
    let n := if (11 <=? String.length inv)%nat then (-7)%Z else (-6)%Z in
    let skey := extract_key inv store_mapping n in
    let sval := dict_get store_mapping skey "Unknown" in
    {| row := row r; storeKey := skey; storeName := sval |}
  else r.

Definition resolve_rows (store_mapping : gmap string string)
    (file_rows : list TransactionRow) : list ResolvedRow :=
  second_try store_mapping <$> (first_try store_mapping <$> file_rows).

(** [df[["storeName", "amount"]]] (lines 159 and 167). *)
Definition name_amount (df : list ResolvedRow) : list (string * float64) :=
  (λ r, (storeName r, amount (row r))) <$> df.

(** The values of the rows that carry a name, in the order of the rows. *)
Definition group_of {A} (name : string) (rows : list (string * A)) : list A :=
  (List.filter (λ ra, String.eqb ra.1 name) rows).*2.

(** [groupby("storeName")]: each name with the values of its rows. *)
Definition groups {A} (rows : list (string * A)) : gmap string (list A) :=
  foldl (λ acc ra, <[ra.1 := (default [] (acc !! ra.1) ++ [ra.2])%list]> acc)
        ∅ rows.

(** The rows of a grouped frame, in the order of their names, as
    [groupby] sorts them. *)
Definition by_name {A} (m : gmap string A) : list (string * A) :=
  merge_sort (λ p q, String.le p.1 q.1) (map_to_list m).

Section Sums.
Context {A : Type}.

(** What [groupby(...).sum()] computes from the values of one group, and
    what [Series.sum()] computes from the values of a column: the two
    routines belong to pandas. *)
Variable group_sum : list A → A.
Variable series_sum : list A → A.

(** [rows.groupby("storeName", as_index=False).sum()]: one row per name,
    holding the sum of its group. *)
Definition groupby_sum (rows : list (string * A)) : list (string * A) :=
  by_name (group_sum <$> groups rows).

(** [df2["amount"].sum()] *)
Definition summary_total (df2 : list (string * A)) : A :=
  series_sum df2.*2.

End Sums.

(** Lines 159-160: [df2], the StoreSummary of one file. *)
Definition store_summary (group_sum : list float64 → float64)
    (store_mapping : gmap string string) (file_rows : list TransactionRow)
    : list (string * float64) :=
  groupby_sum group_sum (name_amount (resolve_rows store_mapping file_rows)).

(** [df["amount"].sum()] over the parsed rows. *)
Definition rows_total (series_sum : list float64 → float64)
    (file_rows : list TransactionRow) : float64 :=
  series_sum (amount <$> file_rows).

End Costco.

(** ** [app/routes/sales.py] *)

Module Sales.
Import PyStr.

(** A Python [float] holding an amount: a finite value, one of the two
    infinities, or NaN. *)
Inductive pyfloat :=
  | Fin (q : Qc)
  | PInf
  | NInf
  | NaN.

(** [a + b]: NaN propagates, and the two infinities add up to NaN. *)
Definition fadd (a b : pyfloat) : pyfloat :=
  match a, b with
  | NaN, _ | _, NaN => NaN
  | Fin x, Fin y => Fin (x + y)%Qc
  | PInf, NInf | NInf, PInf => NaN
  | PInf, _ | _, PInf => PInf
  | NInf, _ | _, NInf => NInf
  end.

(** [a == 0] *)
Definition is_zero (a : pyfloat) : bool :=
  match a with
  | Fin q => bool_decide (q = 0%Qc)
  | _ => false
  end.

(** A cell of the sheet as [pd.read_excel] gives it: empty, text or a
    number. *)
Inductive cell :=
  | CNaN
  | CStr (s : string)
  | CNum (q : Qc).

(** The five columns named on line 38. *)
Record row := {
  Customer : cell;
  Cost : cell;
  n_a : cell;
  cost_of_goods : cell;
  profit_percentage : cell
}.

Inductive exn := IndexError | KeyError | AttributeError | ValueError.

Inductive result (A : Type) :=
  | Ok (a : A)
  | Raise (e : exn).
Arguments Ok {A} a.
Arguments Raise {A} e.

#[global] Instance result_bind : MBind result := λ A B k m,
  match m with
  | Ok a => k a
  | Raise e => Raise e
  end.

(** An insertion-ordered [dict]. *)
Definition odict (V : Type) : Type := list (string * V).

Fixpoint od_get {V} (d : odict V) (k : string) : option V :=
  match d with
  | [] => None
  | (k', v) :: d' => if String.eqb k k' then Some v else od_get d' k
  end.

(** [d[k] = v]: in place for a key that is there, appended otherwise. *)
Fixpoint od_set {V} (d : odict V) (k : string) (v : V) : odict V :=
  match d with
  | [] => [(k, v)]
  | (k', v') :: d' =>
      if String.eqb k k' then (k', v) :: d' else (k', v') :: od_set d' k v
  end.

(** [d.pop(k)] for a key that is there. *)
Fixpoint od_pop {V} (d : odict V) (k : string) : odict V :=
  match d with
  | [] => []
  | (k', v') :: d' => if String.eqb k k' then d' else (k', v') :: od_pop d' k
  end.

Definition od_keys {V} (d : odict V) : list string := d.*1.

(** [sum(values.values())] *)
Definition od_sum (values : odict pyfloat) : pyfloat :=
  foldl fadd (Fin 0%Qc) (values.*2).

(** The frame after [dropna(how="all")]: the rows that are not entirely
    empty, each with the index label it had when read (its position in the
    sheet). *)
Definition frame : Type := list (Z * row).

Definition is_nan (c : cell) : bool :=
  match c with
  | CNaN => true
  | _ => false
  end.

Definition all_nan (r : row) : bool :=
  is_nan (Customer r) && is_nan (Cost r) && is_nan (n_a r)
  && is_nan (cost_of_goods r) && is_nan (profit_percentage r).

Definition dropna (sheet : list row) : frame :=
  List.filter (λ ir, negb (all_nan ir.2)) (imap (λ i r, (Z.of_nat i, r)) sheet).

(** [df[col][label]]: the row with that index label. *)
Fixpoint loc (df : frame) (label : Z) : option row :=
  match df with
  | [] => None
  | (i, r) :: df' => if (i =? label)%Z then Some r else loc df' label
  end.

Section Parser.

(** [float(text)] for a text cell, [None] where it raises [ValueError]. *)
Variable float_of_text : string → option pyfloat.

(** [float(amount)] *)
Definition py_float (amount : cell) : result pyfloat :=
  match amount with
  | CNum q => Ok (Fin q)
  | CNaN => Ok NaN
  | CStr s =>
      match float_of_text s with
      | Some f => Ok f
      | None => Raise ValueError
      end
  end.

(** Lines 61-63, one turn of the [while] loop: the row labelled [temp] is
    looked up ([KeyError] when the label is missing from the index), its
    Customer cell must be text ([AttributeError] on [.lower()] otherwise),
    and its Cost is added under the metric key. *)
Definition metric_row (df : frame) (salesperson : string)
    (sales : odict (odict pyfloat)) (temp : Z) : result (odict (odict pyfloat)) :=
  match loc df temp with
  | None => Raise KeyError
  | Some r =>
      match Customer r with
      | CStr c =>
          let key := join "-" (split " " (strip (lower c))) in
          let values := default [] (od_get sales salesperson) in
          let k := slice_to (-1) key in
          let old := default (Fin 0%Qc) (od_get values k) in
          amount ← py_float (Cost r);
          Ok (od_set sales salesperson (od_set values k (fadd old amount)))
      | _ => Raise AttributeError
      end
  end.

(** The [while temp <= j] loop, for [temp = i + 1 .. i + 3]. *)
Definition block (df : frame) (salesperson : string)
    (sales : odict (odict pyfloat)) (i : Z) : result (odict (odict pyfloat)) :=
  s1 ← metric_row df salesperson sales (i + 1)%Z;
  s2 ← metric_row df salesperson s1 (i + 2)%Z;
  metric_row df salesperson s2 (i + 3)%Z.

(** Lines 51-64: the scan over [df.iterrows()], carrying [sales] and [j]. *)
Fixpoint scan (df : frame) (rows : list (Z * row))
    (sales : odict (odict pyfloat)) (j : Z)
    : result (odict (odict pyfloat) * Z) :=
  match rows with
  | [] => Ok (sales, j)
  | (i, r) :: rest =>
      if (i <=? j)%Z then scan df rest sales j
      else
        match Customer r with
        | CStr customer =>
            if startswith "salesperson" (lower customer) then
              match split " " customer with
              | _ :: salesperson :: _ =>
                  sales' ← block df salesperson sales i;
                  scan df rest sales' (i + 3)%Z
              | _ => Raise IndexError
              end
            else scan df rest sales j
        | _ => scan df rest sales j
        end
  end.

Definition parse_blocks (df : frame) : result (odict (odict pyfloat)) :=
  sj ← scan df df [] (-1)%Z; Ok sj.1.

End Parser.

(** [values[k]] on a [defaultdict(float)]: a missing key is inserted with
    0.0 by the read. *)
Definition dd_read (values : odict pyfloat) (k : string) : pyfloat * odict pyfloat :=
  match od_get values k with
  | Some v => (v, values)
  | None => (Fin 0%Qc, od_set values k (Fin 0%Qc))
  end.

(** [actual[k] += v] on a [defaultdict(float)]. *)
Definition dd_add (actual : odict pyfloat) (k : string) (v : pyfloat) : odict pyfloat :=
  od_set actual k (fadd (default (Fin 0%Qc) (od_get actual k)) v).

(** Lines 70-76: the loop over [sales.items()].  It returns [actual], the
    list [popped] and [sales] with the reads of the retained blocks
    recorded. *)
Fixpoint aggregate (sales : odict (odict pyfloat)) (actual : odict pyfloat)
    : odict pyfloat * list string * odict (odict pyfloat) :=
  match sales with
  | [] => (actual, [], [])
  | (salesperson, values) :: rest =>
      if is_zero (od_sum values) then
        let done := aggregate rest actual in
        (done.1.1, salesperson :: done.1.2, (salesperson, values) :: done.2)
      else
        let r1 := dd_read values "period-to-date" in
        let actual1 := dd_add actual "period-to-date" r1.1 in
        let r2 := dd_read r1.2 "year-to-date" in
        let actual2 := dd_add actual1 "year-to-date" r2.1 in
        let r3 := dd_read r2.2 "prior-year" in
        let actual3 := dd_add actual2 "prior-year" r3.1 in
        let done := aggregate rest actual3 in
        (done.1.1, done.1.2, (salesperson, r3.2) :: done.2)
  end.

(** Lines 66-79: the per-salesperson table that is written out, and the
    totals before they are rounded to three decimals. *)
Definition retain (sales : odict (odict pyfloat))
    : odict (odict pyfloat) * odict pyfloat :=
  let done := aggregate sales [] in
  (foldl od_pop done.2 done.1.2, done.1.1).

Definition sales_table (sales : odict (odict pyfloat)) : odict (odict pyfloat) :=
  (retain sales).1.


End Sales.

(** ** Sample sheets *)

Module Sheets.
Import Sales.

Definition num (z : Z) : Qc := Q2Qc (inject_Z z).

Definition line (customer : string) (cost : cell) : row :=
  {| Customer := CStr customer; Cost := cost; n_a := CNaN;
     cost_of_goods := CNaN; profit_percentage := CNaN |}.

(** The labels exactly as the scenario of the specification writes them. *)
Definition john_plain : list row :=
  [ line "Salesperson John" CNaN;
    line "Period To Date" (CNum (num 100));
    line "Year To Date" (CNum (num 200));
    line "Prior Year" (CNum (num 50)) ].

(** The same block with one more character at the end of each label. *)
Definition john_colon : list row :=
  [ line "Salesperson John" CNaN;
    line "Period To Date:" (CNum (num 100));
    line "Year To Date:" (CNum (num 200));
    line "Prior Year:" (CNum (num 50)) ].


(** A one-token "Salesperson" cell inside the block of another one. *)
Definition token_inside_block : list row :=
  [ line "Salesperson John" CNaN;
    line "Salesperson" (CNum (num 100));
    line "Year To Date:" (CNum (num 200));
    line "Prior Year:" (CNum (num 50)) ].

(** A one-token "Salesperson" cell where a block starts. *)
Definition token_at_block_start : list row :=
  john_colon ++ [ line "Salesperson" CNaN ].

Definition no_text_floats : string → option pyfloat := λ _, None.

End Sheets.

(** ** Sample first pages *)

Module Pages.
Import PyStr Costco.

Definition page (lines : list string) : string :=
  join (String newline EmptyString) lines.

Definition date_then_payment : string :=
  page ["Costco Wholesale"; "Date: 01/04/2026"; "Payment #123456";
        "Invoice Order Description"].

Definition two_dates_then_payment : string :=
  page ["Costco Wholesale"; "Date: 01/04/2026"; "Date Due: 02/05/2026";
        "Payment #123456"].

Definition two_dates_no_payment : string :=
  page ["Costco Wholesale"; "Date: 01/04/2026"; "Date Due: 02/05/2026";
        "Payment pending"].

Definition payment_then_date : string :=
  page ["Payment #123456"; "Date: 01/04/2026"].

Definition no_header : string :=
  page ["Costco Wholesale"; "Invoice Order Description"].

End Pages.

(** ** Sample payment rows *)

Module Payments.
Import Float64 Costco.

Definition paid (invoice : string) (value : float64) : TransactionRow :=
  {| invoiceNumber := invoice; orderNumber := ""; description := "";
     date := ""; amount := value |}.

Definition directory : gmap string string :=
  <["0001" := "A"]> (<["0002" := "B"]> ∅).

(** Amounts 0.1, 0.3 and 0.7; the first and the third invoice belong to
    store 0001, the second to store 0002. *)
Definition three_rows : list TransactionRow :=
  [paid "1ABCDEF" (decimal 1 1); paid "2ABCDEF" (decimal 3 1);
   paid "1ABCDEF" (decimal 7 1)].

End Payments.


(** ** More of the source

    The parts of the same files that the statements above do not reach:
    [to_camel_case], the table rows and the sheet footer of
    [app/routes/costco.py], the line scan and the combined summary of
    [app/main.py], the expected totals and the validation of
    [app/routes/sales.py], and the download slot of [main.py]. *)

Module PyText.
Import PyStr.

Definition upper_char (c : ascii) : ascii :=
  let n := nat_of_ascii c in
  if (97 <=? n)%nat && (n <=? 122)%nat then ascii_of_nat (n - 32) else c.

(** [w.capitalize()] on ASCII text. *)
Definition capitalize (w : string) : string :=
  match w with
  | EmptyString => EmptyString
  | String c w' => String (upper_char c) (lower w')
  end.

(** Longest prefix without whitespace. *)
Fixpoint take_word (s : string) : string :=
  match s with
  | String c s' => if is_space c then EmptyString else String c (take_word s')
  | EmptyString => EmptyString
  end.

(** [s.split()]: the maximal runs of non-whitespace characters.  [inword]
    tells that the previous character belongs to a word already reported. *)
Fixpoint words_from (inword : bool) (s : string) : list string :=
  match s with
  | EmptyString => []
  | String c s' =>
      if is_space c then words_from false s'
      else if inword then words_from true s'
      else take_word s :: words_from true s'
  end.

Definition split_ws (s : string) : list string := words_from false s.

(** [re.sub("[chars]", "", s)] and [s.replace(c, "")]: the characters of
    [chars] are removed. *)
Fixpoint remove_chars (chars s : string) : string :=
  match s with
  | EmptyString => EmptyString
  | String c s' =>
      if char_in c chars then remove_chars chars s'
      else String c (remove_chars chars s')
  end.

(** ["".join(parts)] *)
Fixpoint concat_all (parts : list string) : string :=
  match parts with
  | [] => EmptyString
  | w :: ws => w ++ concat_all ws
  end.

End PyText.

Module Camel.
Import PyStr PyText.

(** [to_camel_case] of [app/library/utils.py]. *)
Definition to_camel_case (text : string) : string :=
  if String.eqb text "" then ""
  else
    match split_ws text with
    | [] => ""
    | w :: ws => lower w ++ concat_all (capitalize <$> ws)
    end.

End Camel.

(** *** [app/routes/costco.py]: table rows and sheet footer *)

Module Tables.
Import PyStr PyText Utils Float64 Costco.

(** [re.sub(r"[\\*?:/\[\]]", "", filename)[:31]] (line 199). *)
Definition safe_name (filename : string) : string :=
  take 31 (remove_chars "\*?:/[]" filename).

(** [rdate, rcheck = filename.split()] (line 208): [None] stands for the
    [ValueError] of an unpacking that does not find two values. *)
Definition date_and_check (filename : string) : option (string * string) :=
  match split_ws filename with
  | [rdate; rcheck] => Some (rdate, rcheck)
  | _ => None
  end.

(** [row[i] if row[i] else d] on a cell that is [None] or text. *)
Definition cell_or (c : option string) (d : string) : string :=
  match c with
  | Some s => if String.eqb s "" then d else s
  | None => d
  end.

Definition cell_at (r : list (option string)) (i : nat) : option string :=
  nth i r None.

Section Rows.

(** [float(amount_str)], [None] where it raises [ValueError]. *)
Variable float_of_text : string → option float64.

(** Lines 104-133, one row of a table: [None] where the row is skipped. *)
Definition parse_row (r : list (option string)) : option TransactionRow :=
  if (length r <? 7)%nat then None
  else
    let invoice := cell_or (cell_at r 0) "" in
    let order_number := cell_or (cell_at r 1) "" in
    let description := cell_or (cell_at r 2) "" in
    let date := cell_or (cell_at r 3) "" in
    let amount_str := cell_or (cell_at r 6) "0" in
    let amount_str := strip (remove_chars "," amount_str) in
    if String.eqb amount_str "" || String.eqb invoice "" then None
    else
      match float_of_text amount_str with
      | None => None
      | Some amount =>
          Some {| invoiceNumber := strip invoice;
                  orderNumber := strip order_number;
                  description := strip description;
                  date := strip date;
                  amount := amount |}
      end.

(** Lines 98-103: a table of fewer than two rows is skipped, and the first
    row of the others is the header. *)
Definition parse_table (table : list (list (option string)))
    : list TransactionRow :=
  if (length table <? 2)%nat then []
  else omap parse_row (tail table).

(** Lines 95-133: all tables of all pages, in order. *)
Definition parse_pages (pages : list (list (list (list (option string)))))
    : list TransactionRow :=
  concat ((λ tables, concat (parse_table <$> tables)) <$> pages).

End Rows.

(** [app/main.py], lines 115-116, 140 and 146-153: the rows of all files
    with at least one row are concatenated and grouped; [None] stands for
    the 400 response given when no file has a row.  The frame is the one
    [groupby(...).sum()] returns, before [sort_values] reorders its rows. *)
Definition combined_summary (group_sum : list float64 → float64)
    (store_mapping : gmap string string)
    (files : list (list TransactionRow)) : option (list (string * float64)) :=
  let aggregated_data :=
    (λ file_rows, name_amount (resolve_rows store_mapping file_rows))
      <$> List.filter (λ file_rows, negb (Nat.eqb (length file_rows) 0)) files in
  match aggregated_data with
  | [] => None
  | _ => Some (groupby_sum group_sum (concat aggregated_data))
  end.

End Tables.

(** *** [app/main.py]: the line scan *)

Module LineScan.
Import PyStr PyText Float64 Costco.

(** [\d{4}] at the head of [s]. *)
Definition four_digits (s : string) : bool :=
  match s with
  | String a (String b (String c (String d _))) =>
      is_digit a && is_digit b && is_digit c && is_digit d
  | _ => false
  end.

(** [/\d{4}] *)
Definition slash_year (s : string) : bool :=
  match s with
  | String c s' => Ascii.eqb c "/"%char && four_digits s'
  | EmptyString => false
  end.

(** [\d{1,2}/\d{4}]: two digits first, one on backtracking. *)
Definition day_year (s : string) : bool :=
  match s with
  | String a s1 =>
      is_digit a
      && ((match s1 with
           | String b s2 => is_digit b && slash_year s2
           | EmptyString => false
           end)
          || slash_year s1)
  | EmptyString => false
  end.

(** [/\d{1,2}/\d{4}] *)
Definition slash_day_year (s : string) : bool :=
  match s with
  | String c s' => Ascii.eqb c "/"%char && day_year s'
  | EmptyString => false
  end.

(** [re.match(r"\d{1,2}/\d{1,2}/\d{4}", p)]: anchored at the start of the
    token only. *)
Definition match_date (p : string) : bool :=
  match p with
  | String a s1 =>
      is_digit a
      && ((match s1 with
           | String b s2 => is_digit b && slash_day_year s2
           | EmptyString => false
           end)
          || slash_day_year s1)
  | EmptyString => false
  end.

Section Lines.

Variable float_of_text : string → option float64.

(** Lines 95-113, one line of page text: [None] where it gives no row. *)
Definition parse_line (line : string) : option (string * float64) :=
  let parts := split_ws line in
  if existsb match_date parts then
    match parts with
    | invoice :: _ =>
        let amount_str := remove_chars "," (List.last parts "") in
        (λ amount, (invoice, amount)) <$> float_of_text amount_str
    | [] => None
    end
  else None.

(** [text.split("\n")] and the loop over the lines of a page. *)
Definition parse_text (text : string) : list (string * float64) :=
  omap parse_line (split newline text).

End Lines.

End LineScan.

(** *** [app/routes/sales.py]: expected totals and validation *)

Module Validation.
Import Sales.

Definition keys : list string :=
  ["period-to-date"; "year-to-date"; "prior-year"].

(** [l[-4:-1]] *)
Definition iloc_tail {A} (l : list A) : list A :=
  let n := length l in
  take ((n - 1) - (n - 4)) (drop (n - 4) l).

(** [a == b] on floats: NaN equals nothing, itself included, and an
    infinity equals itself. *)
Definition feq (a b : pyfloat) : bool :=
  match a, b with
  | Fin x, Fin y => bool_decide (x = y)
  | PInf, PInf | NInf, NInf => true
  | _, _ => false
  end.

(** An entry of [validation_results]. *)
Record entry := {
  expected_value : pyfloat;
  actual_value : pyfloat;
  matched : bool
}.

Section Process.

Variable float_of_text : string → option pyfloat.

(** [round(q, 3)] on a finite value. *)
Variable round3 : Qc → Qc.

(** [round(a, 3)]: an infinity and NaN are returned as they are. *)
Definition py_round (a : pyfloat) : pyfloat :=
  match a with
  | Fin q => Fin (round3 q)
  | other => other
  end.

(** Lines 43-45: [float(val)] raises on text that is no number. *)
Fixpoint expected_loop (kvs : list (string * cell)) (expected : odict pyfloat)
    : result (odict pyfloat) :=
  match kvs with
  | [] => Ok expected
  | (k, val) :: rest =>
      f ← py_float float_of_text val;
      expected_loop rest (od_set expected k (py_round f))
  end.

Definition expected_totals (df : frame) : result (odict pyfloat) :=
  expected_loop (zip keys ((λ ir, Cost ir.2) <$> iloc_tail df)) [].

(** Lines 82-83. *)
Definition round_all (actual : odict pyfloat) : odict pyfloat :=
  (λ kv, (kv.1, py_round kv.2)) <$> actual.

(** Lines 86-92: one entry per key of [expected]; a key that [actual] does
    not hold reads as 0.0. *)
Definition validate (expected actual : odict pyfloat) : odict entry :=
  (λ kv, let a := default (Fin 0%Qc) (od_get actual kv.1) in
         (kv.1, {| expected_value := kv.2; actual_value := a;
                   matched := feq a kv.2 |})) <$> expected.

(** Lines 115-123: the summary rows read [validation_results[k]] for the
    three keys ([KeyError] for one that is missing). *)
Fixpoint summary_rows (ks : list string) (validation_results : odict entry)
    : result (list (string * entry)) :=
  match ks with
  | [] => Ok []
  | k :: ks' =>
      match od_get validation_results k with
      | None => Raise KeyError
      | Some e =>
          rows ← summary_rows ks' validation_results;
          Ok ((k, e) :: rows)
      end
  end.

(** [process_sales_analysis] from the frame on: the table written to the
    sheet, the summary rows and [validation_results]. *)
Definition process_sales_analysis (sheet : list row)
    : result (odict (odict pyfloat) * list (string * entry) * odict entry) :=
  let df := dropna sheet in
  expected ← expected_totals df;
  sales ← parse_blocks float_of_text df;
  let kept := retain sales in
  let actual := round_all kept.2 in
  let validation_results := validate expected actual in
  rows ← summary_rows keys validation_results;
  Ok (kept.1, rows, validation_results).

End Process.

End Validation.

(** *** [main.py]: the slot of the last sales analysis *)

Module Downloads.

Section Slot.

(** What a request hands back. *)
Variable response : Type.

(** The 400 response of [/sales/download] with no analysis. *)
Variable no_analysis : response.

(** A request: a POST of [/sales], with the response
    [process_sales_analysis] returned or [None] where it raised, or a GET of
    [/sales/download]. *)
Inductive request :=
  | SalesPost (outcome : option response)
  | SalesDownload.

(** [last_sales_analysis]: empty, or holding a response. *)
Definition slot : Type := option response.

(** [sales_post] writes the slot after [process_sales_analysis] returns;
    an exception leaves it as it was. *)
Definition handle (last_sales_analysis : slot) (rq : request) : slot :=
  match rq with
  | SalesPost (Some r) => Some r
  | SalesPost None => last_sales_analysis
  | SalesDownload => last_sales_analysis
  end.

(** [sales_download] *)
Definition sales_download (last_sales_analysis : slot) : response :=
  match last_sales_analysis with
  | Some r => r
  | None => no_analysis
  end.

Definition run (requests : list request) : slot :=
  foldl handle None requests.

End Slot.

End Downloads.

(** * Properties *)

(** ** Strings *)

Module PyStrFacts.
Import PyStr.

#[local] Arguments String.append : simpl nomatch.

Lemma digit_not_sign c : is_digit c = true → is_sign c = false.
Proof.
  destruct c as [[] [] [] [] [] [] [] []]; vm_compute;
    (reflexivity || (intros H; discriminate H)).
Qed.

Lemma length_zeros k : String.length (zeros k) = k.
Proof. induction k; simpl; congruence. Qed.

Lemma all_digits_zeros k : all_digits (zeros k) = true.
Proof. induction k; simpl; auto. Qed.

Lemma all_digits_app s t :
  all_digits (s ++ t) = all_digits s && all_digits t.
Proof.
  induction s as [|c s IH]; simpl; [reflexivity|].
  rewrite IH. apply andb_assoc.
Qed.

Lemma length_app (s t : string) :
  String.length (s ++ t) = (String.length s + String.length t)%nat.
Proof. induction s; simpl; congruence. Qed.

Lemma all_digits_take_digits s : all_digits (take_digits s) = true.
Proof.
  induction s as [|c s IH]; simpl; [reflexivity|].
  destruct (is_digit c) eqn:Hc; simpl; [rewrite Hc|]; auto.
Qed.

Lemma all_digits_lstrip chars s :
  all_digits s = true → all_digits (lstrip chars s) = true.
Proof.
  induction s as [|c s IH]; simpl; [auto|].
  intros [Hc Hs]%andb_prop. destruct (char_in c chars); simpl; auto.
  rewrite Hc, Hs. reflexivity.
Qed.

Lemma all_digits_rstrip chars s :
  all_digits s = true → all_digits (rstrip chars s) = true.
Proof.
  induction s as [|c s IH]; simpl; [auto|].
  intros [Hc Hs]%andb_prop. specialize (IH Hs).
  destruct (rstrip chars s) as [|d r]; simpl in *.
  - destruct (char_in c chars); simpl; [|rewrite Hc]; reflexivity.
  - rewrite Hc. exact IH.
Qed.

Lemma lstrip_idem chars s : lstrip chars (lstrip chars s) = lstrip chars s.
Proof.
  induction s as [|c s IH]; simpl; [reflexivity|].
  destruct (char_in c chars) eqn:Hc; [exact IH|].
  simpl. rewrite Hc. reflexivity.
Qed.

Lemma lstrip_zeros_app k s : lstrip "0" (zeros k ++ s) = lstrip "0" s.
Proof. induction k; simpl; auto. Qed.

Lemma lstrip_zeros k : lstrip "0" (zeros k) = "".
Proof. induction k; simpl; auto. Qed.

(** On a string of digits [zfill] only adds zeros in front. *)
Lemma zfill_digits w s :
  all_digits s = true → zfill w s = zeros (w - String.length s) ++ s.
Proof.
  destruct s as [|c s]; intros H.
  - unfold zfill. simpl. induction (w - 0)%nat; simpl; congruence.
  - simpl in H. apply andb_prop in H as [Hc _].
    unfold zfill. rewrite (digit_not_sign _ Hc). reflexivity.
Qed.

Lemma all_digits_zfill w s : all_digits s = true → all_digits (zfill w s) = true.
Proof.
  intros H. rewrite zfill_digits by done.
  rewrite all_digits_app, all_digits_zeros, H. reflexivity.
Qed.

Lemma length_zfill_digits w s :
  all_digits s = true →
  String.length (zfill w s) = Nat.max w (String.length s).
Proof.
  intros H. rewrite zfill_digits by done.
  rewrite length_app, length_zeros. lia.
Qed.

(** Stripping the zeros that [zfill] added gives the unpadded string back,
    for a digit string that had its leading zeros removed. *)
Lemma lstrip_zfill_lstrip w d :
  all_digits d = true →
  lstrip "0" (zfill w (lstrip "0" d)) = lstrip "0" d.
Proof.
  intros H. rewrite zfill_digits by (by apply all_digits_lstrip).
  rewrite lstrip_zeros_app. apply lstrip_idem.
Qed.

Lemma findall_from_head b s d ds :
  findall_from b s = d :: ds → isdigit d = true.
Proof.
  revert b. induction s as [|c s IH]; intros b; simpl; [discriminate|].
  destruct (is_digit c) eqn:Hc; [destruct b|]; eauto.
  intros [= <- _]. cbn [isdigit all_digits]. rewrite Hc.
  apply all_digits_take_digits.
Qed.

Lemma isdigit_all_digits s : isdigit s = true → all_digits s = true.
Proof. destruct s; simpl; [discriminate|auto]. Qed.

Lemma take_app_length (k : nat) (s : string) :
  (k ≤ String.length s)%nat →
  ∃ t, s = take k s ++ t ∧ String.length t = (String.length s - k)%nat.
Proof.
  revert s. induction k as [|k IH]; intros s Hk.
  - exists s. destruct s; simpl; split; auto.
  - destruct s as [|c s]; simpl in *; [lia|].
    destruct (IH s) as (t & Ht & Hl); [lia|].
    exists t. split; [congruence|exact Hl].
Qed.

(** For a negative [n], [s[:n]] is [s] without its last [|n|] characters
    (without all of them when [s] is shorter). *)
Lemma slice_to_negative (n : Z) (s : string) :
  (n < 0)%Z →
  ∃ t, s = slice_to n s ++ t
       ∧ String.length t = Nat.min (Z.to_nat (- n)) (String.length s).
Proof.
  intros Hn. unfold slice_to.
  destruct (Z.ltb_spec n 0); [|lia].
  destruct (take_app_length
              (Z.to_nat (Z.max 0 (Z.of_nat (String.length s) + n))) s)
    as (t & Ht & Hl); [lia|].
  exists t. split; [exact Ht|]. rewrite Hl. lia.
Qed.

Lemma take_digits_split s :
  ∃ post, s = take_digits s ++ post ∧ take_digits post = "".
Proof.
  induction s as [|c s (post & Hs & Hp)]; [by exists ""|].
  simpl. destruct (is_digit c) eqn:Hc.
  - exists post. simpl. split; [congruence|exact Hp].
  - exists (String c s). simpl. rewrite Hc. done.
Qed.

(** The first element of [re.findall(r"\d+", s)] is the first maximal run
    of digits of [s]: nothing before it is a digit, and the character after
    it, if any, is not one. *)
Lemma findall_digits_first_run s d ds :
  findall_digits s = d :: ds →
  ∃ pre post, s = pre ++ d ++ post ∧ findall_digits pre = []
              ∧ isdigit d = true ∧ take_digits post = "".
Proof.
  unfold findall_digits. induction s as [|c s IH]; simpl; [discriminate|].
  destruct (is_digit c) eqn:Hc.
  - intros [= <- _]. destruct (take_digits_split s) as (post & Hs & Hp).
    exists "", post. simpl. repeat split; try done.
    + congruence.
    + rewrite Hc. apply all_digits_take_digits.
  - intros (pre & post & -> & Hpre & Hd & Hp)%IH.
    exists (String c pre), post. simpl. rewrite Hc. done.
Qed.

Lemma findall_digits_none s c :
  findall_digits s = [] → char_in c s = true → is_digit c = false.
Proof.
  unfold findall_digits. induction s as [|a s IH]; simpl; [discriminate|].
  destruct (is_digit a) eqn:Ha; [discriminate|].
  intros Hs [->%Ascii.eqb_eq | Hc]%orb_prop; auto.
Qed.

End PyStrFacts.

(** ** The Invoice Key Resolver *)

Module ResolverFacts.
Import PyStr Utils PyStrFacts.

Lemma contains_true (D : gmap string string) k :
  contains D k = true ↔ is_Some (D !! k).
Proof. unfold contains. apply bool_decide_eq_true. Qed.

Lemma contains_false (D : gmap string string) k :
  contains D k = false ↔ D !! k = None.
Proof.
  unfold contains. rewrite bool_decide_eq_false, eq_None_not_Some. done.
Qed.

Lemma extract_key_empty (D : gmap string string) n : extract_key "" D n = "0000".
Proof. reflexivity. Qed.

Lemma extract_key_no_digits (D : gmap string string) invoice_num n :
  findall_digits (slice_to n invoice_num) = [] →
  extract_key invoice_num D n = "0000".
Proof.
  intros H. unfold extract_key. rewrite H. by destruct (String.eqb _ _).
Qed.

(** The resolver written as the chain of its three look-ups. *)
Lemma extract_key_unfold (D : gmap string string) invoice_num n run rest :
  invoice_num ≠ "" →
  findall_digits (slice_to n invoice_num) = run :: rest →
  extract_key invoice_num D n =
    let res := zfill 4 (lstrip "0" run) in
    if contains D res then res
    else if contains D (lstrip "0" res) then lstrip "0" res
    else if contains D (zfill 4 (rstrip "0" res)) then zfill 4 (rstrip "0" res)
    else "0000".
Proof.
  intros Hne Hrun. unfold extract_key.
  destruct (String.eqb_spec invoice_num "") as [|_]; [done|].
  rewrite Hrun. cbv zeta. by destruct (contains D (zfill 4 (lstrip "0" run))).
Qed.

Lemma head_findall_run s run :
  head (findall_digits s) = Some run →
  ∃ rest, findall_digits s = run :: rest ∧ all_digits run = true.
Proof.
  destruct (findall_digits s) as [|d ds] eqn:H; [discriminate|].
  intros [= ->]. exists ds. split; [done|].
  apply isdigit_all_digits. eapply findall_from_head. exact H.
Qed.

(** The chain of look-ups in terms of the extracted run. *)
Lemma extract_key_chain (D : gmap string string)
    (invoice_num : string) (n : Z) (run : string) :
  invoice_num ≠ "" →
  head (findall_digits (slice_to n invoice_num)) = Some run →
  extract_key invoice_num D n =
    if contains D (zfill 4 (lstrip "0" run)) then zfill 4 (lstrip "0" run)
    else if contains D (lstrip "0" run) then lstrip "0" run
    else if contains D (zfill 4 (rstrip "0" (zfill 4 (lstrip "0" run))))
         then zfill 4 (rstrip "0" (zfill 4 (lstrip "0" run)))
    else "0000".
Proof.
  intros Hne (rest & Hrun & Hdig)%head_findall_run.
  rewrite (extract_key_unfold D _ _ _ _ Hne Hrun). cbv zeta.
  by rewrite lstrip_zfill_lstrip.
Qed.

(** C1. For a non-empty invoice identifier whose truncated form
    [invoice_num[:n]] holds a digit run, the resolver returns the first of
    these that is a key of the directory: the candidate (the first run,
    leading zeros stripped, zero-padded to four), the run with its leading
    zeros stripped and no padding, the candidate with its trailing zeros
    stripped and padded to four again; and "0000" when none is a key. *)
Theorem extract_key_tier_order (D : gmap string string)
    (invoice_num : string) (n : Z) (run : string) :
  invoice_num ≠ "" →
  head (findall_digits (slice_to n invoice_num)) = Some run →
  let stripped := lstrip "0" run in
  let candidate := zfill 4 stripped in
  let rres := zfill 4 (rstrip "0" candidate) in
  extract_key invoice_num D n =
    if contains D candidate then candidate
    else if contains D stripped then stripped
    else if contains D rres then rres
    else "0000".
Proof. intros Hne Hrun. cbv zeta. by apply extract_key_chain. Qed.

Lemma extract_key_tier_order_witness :
  extract_key "0042-77ABCDEF" (<["42" := "Store 42"]> ∅) (-6) = "42".
Proof.
  exact (extract_key_tier_order (<["42" := "Store 42"]> ∅)
           "0042-77ABCDEF" (-6) "0042"
           ltac:(discriminate) ltac:(reflexivity)).
Defined.

(** C7, as amended. When neither the four-padded candidate nor its
    left-stripped form is a key of the directory and the
    right-stripped-then-padded form is, the resolver returns that form. *)
Theorem extract_key_third_tier (D : gmap string string)
    (invoice_num : string) (n : Z) (run : string) :
  invoice_num ≠ "" →
  head (findall_digits (slice_to n invoice_num)) = Some run →
  let stripped := lstrip "0" run in
  let candidate := zfill 4 stripped in
  let rres := zfill 4 (rstrip "0" candidate) in
  contains D candidate = false →
  contains D stripped = false →
  contains D rres = true →
  extract_key invoice_num D n = rres.
Proof.
  intros Hne Hrun. cbv zeta. intros H1 H2 H3.
  by rewrite (extract_key_chain D _ _ _ Hne Hrun), H1, H2, H3.
Qed.

Lemma extract_key_third_tier_witness :
  extract_key "4200ABCDEF" (<["0042" := "Store 42"]> ∅) (-6) = "0042".
Proof.
  exact (extract_key_third_tier (<["0042" := "Store 42"]> ∅)
           "4200ABCDEF" (-6) "4200"
           ltac:(discriminate) ltac:(reflexivity)
           ltac:(vm_compute; reflexivity) ltac:(vm_compute; reflexivity)
           ltac:(vm_compute; reflexivity)).
Defined.

(** C7 as first stated fails: the left-stripped run "420" is not a key, the
    right-stripped-then-padded form "0042" is one, and the resolver returns
    the padded candidate "0420", which the first look-up finds. *)
Lemma extract_key_third_tier_shadowed :
  let D : gmap string string := <["0420" := "A"]> (<["0042" := "B"]> ∅) in
  let invoice_num := "420ABCDEF" in
  head (findall_digits (slice_to (-6) invoice_num)) = Some "420"
  ∧ contains D (lstrip "0" "420") = false
  ∧ zfill 4 (rstrip "0" (zfill 4 (lstrip "0" "420"))) = "0042"
  ∧ zfill 4 (rstrip "0" "420") = "0042"
  ∧ contains D "0042" = true
  ∧ extract_key invoice_num D (-6) = "0420"
  ∧ extract_key invoice_num D (-6) ≠ "0042".
Proof. vm_compute. repeat split; discriminate. Qed.

(** The scenario of the specification: "123456789#01" is cut to "123456",
    whose run is longer than four digits and is no key of the directory. *)
Example extract_key_scenario :
  slice_to default_n "123456789#01" = "123456"
  ∧ extract_key "123456789#01" (<["1234" := "Store A"]> ∅) default_n = "0000".
Proof. vm_compute. done. Qed.

(** What the resolver returns is the sentinel or a key of the directory. *)
Lemma extract_key_sentinel_or_key (D : gmap string string) invoice_num n :
  extract_key invoice_num D n = "0000"
  ∨ is_Some (D !! extract_key invoice_num D n).
Proof.
  unfold extract_key. destruct (String.eqb _ _); [by left|].
  destruct (findall_digits _) as [|run rest]; [by left|]. cbv zeta.
  destruct (contains D (zfill 4 (lstrip "0" run))) eqn:H1; simpl.
  { right. by apply contains_true. }
  destruct (contains D (lstrip "0" (zfill 4 (lstrip "0" run)))) eqn:H2.
  { right. by apply contains_true. }
  destruct (contains D (zfill 4 (rstrip "0" (zfill 4 (lstrip "0" run))))) eqn:H3.
  { right. by apply contains_true. }
  by left.
Qed.

End ResolverFacts.

(** ** The Store Directory Normalizer *)

Module DirectoryFacts.
Import PyStr Utils PyStrFacts ResolverFacts.

Lemma sentinels_lookup :
  sentinels !! "0000" = Some "Unknown" ∧ sentinels !! "1997" = Some "C991997".
Proof.
  unfold sentinels. split; [apply lookup_insert_eq|].
  rewrite lookup_insert_ne by done. apply lookup_insert_eq.
Qed.

Lemma add_missed_lookup (m : gmap string string) :
  add_missed m !! "0000" = Some "Unknown"
  ∧ add_missed m !! "1997" = Some "C991997".
Proof.
  unfold add_missed. split; [apply lookup_insert_eq|].
  rewrite lookup_insert_ne by done. apply lookup_insert_eq.
Qed.

Lemma directory_sentinels (csv_path : option read_csv_outcome)
    (df : option DataFrame) :
  get_store_names csv_path df !! "0000" = Some "Unknown"
  ∧ get_store_names csv_path df !! "1997" = Some "C991997".
Proof.
  unfold get_store_names.
  destruct df as [d|]; [|destruct csv_path as [[|d]|]];
    try apply sentinels_lookup; try apply add_missed_lookup;
    destruct d as [|c0 [|c1 [|c2 d]]];
    try apply sentinels_lookup; apply add_missed_lookup.
Qed.

(** C3. Whatever the input (any table, a table with fewer than two
    columns, no table at all, a read that raises), the directory returned
    maps "0000" to "Unknown" and "1997" to "C991997"; rows that define these
    codes are overwritten. *)
Theorem get_store_names_sentinels (csv_path : option read_csv_outcome)
    (df : option DataFrame) :
  get_store_names csv_path df !! "0000" = Some "Unknown"
  ∧ get_store_names csv_path df !! "1997" = Some "C991997".
Proof. apply directory_sentinels. Qed.

(** The scenario of the specification: three columns, the code in the
    third. *)
Example get_store_names_scenario :
  get_store_names None (Some [["Downtown Store"]; ["x"]; ["#0042"]]) !! "0042"
  = Some "Downtown Store".
Proof. vm_compute. reflexivity. Qed.

(** Rows that define the two codes do not survive. *)
Lemma get_store_names_overwrites :
  let D := get_store_names None
             (Some [["Nowhere"; "Legacy"]; ["0000"; "#1997"]]) in
  D !! "0000" = Some "Unknown" ∧ D !! "1997" = Some "C991997".
Proof. vm_compute. done. Qed.

(** A key of the directory is a numeric code zero-padded to four. *)
Lemma padded_code_shape k :
  (∃ code, isdigit code = true ∧ k = zfill 4 code) →
  isdigit k = true ∧ (4 ≤ String.length k)%nat.
Proof.
  intros (code & Hd & ->). pose proof (isdigit_all_digits _ Hd) as Ha.
  split.
  - pose proof (all_digits_zfill 4 code Ha) as Hz.
    pose proof (length_zfill_digits 4 code Ha) as Hl.
    destruct (zfill 4 code); [simpl in Hl; lia|exact Hz].
  - rewrite length_zfill_digits by done. lia.
Qed.

Lemma key_formatter_padded s :
  key_formatter s ≠ "-1" →
  ∃ code, isdigit code = true ∧ key_formatter s = zfill 4 code.
Proof.
  unfold key_formatter.
  destruct (String.eqb (strip s) "" || String.eqb (lower (strip s)) "nan");
    [done|].
  set (t := if startswith "#" (strip s) then lstrip "#" (strip s) else strip s).
  destruct (isdigit t) eqn:Ht; [|done].
  intros _. by exists t.
Qed.

Lemma fill_rows_keys (P : string → Prop) long_col short_col
    (acc : gmap string string) :
  (∀ s, key_formatter s ≠ "-1" → P (key_formatter s)) →
  (∀ k, is_Some (acc !! k) → P k) →
  ∀ k, is_Some (fill_rows long_col short_col acc !! k) → P k.
Proof.
  intros HP. unfold fill_rows.
  revert acc. induction (zip long_col short_col) as [|[x y] l IH];
    intros acc Hacc; simpl; [exact Hacc|].
  apply IH. destruct (String.eqb_spec (key_formatter y) "-1") as [|Hne];
    [exact Hacc|].
  intros k. destruct (decide (key_formatter y = k)) as [<-|Hk].
  - intros _. by apply HP.
  - rewrite lookup_insert_ne by done. apply Hacc.
Qed.

Lemma add_missed_keys (P : string → Prop) (m : gmap string string) :
  P "0000" → P "1997" →
  (∀ k, is_Some (m !! k) → P k) →
  ∀ k, is_Some (add_missed m !! k) → P k.
Proof.
  intros H0 H1 Hm k. unfold add_missed.
  destruct (decide ("0000" = k)) as [<-|?]; [done|].
  rewrite lookup_insert_ne by done.
  destruct (decide ("1997" = k)) as [<-|?]; [done|].
  rewrite lookup_insert_ne by done. apply Hm.
Qed.

Lemma get_store_names_keys (P : string → Prop) csv_path df :
  P "0000" → P "1997" →
  (∀ s, key_formatter s ≠ "-1" → P (key_formatter s)) →
  ∀ k, is_Some (get_store_names csv_path df !! k) → P k.
Proof.
  intros H0 H1 HP.
  assert (∀ k, is_Some (sentinels !! k) → P k) as Hs.
  { apply (add_missed_keys P ∅ H0 H1). intros k. rewrite lookup_empty.
    by intros [? ?]. }
  assert (∀ a b k, is_Some (add_missed (fill_rows a b ∅) !! k) → P k) as Hf.
  { intros a b. apply add_missed_keys; [done..|].
    apply fill_rows_keys; [done|]. intros k. rewrite lookup_empty.
    by intros [? ?]. }
  assert (∀ d : DataFrame, ∀ k,
            is_Some (match d with
                     | long_col :: _ :: short_col :: _ =>
                         add_missed (fill_rows long_col short_col ∅)
                     | long_col :: short_col :: _ =>
                         add_missed (fill_rows long_col short_col ∅)
                     | _ => sentinels
                     end !! k) → P k) as Hd.
  { intros [|c0 [|c1 [|c2 d]]]; first [exact Hs | apply Hf]. }
  assert (∀ k, is_Some (add_missed ∅ !! k) → P k) as He by exact Hs.
  unfold get_store_names.
  destruct df as [d|]; [apply Hd|].
  destruct csv_path as [[|d]|]; [exact Hs|apply Hd|exact He].
Qed.

(** C4, as amended. Every key of the directory returned is made of digits
    only and is at least four characters long: it is a numeric code
    zero-padded to four, so a code of up to four digits gives a key of
    exactly four characters and a longer code keeps its full length. *)
Theorem get_store_names_keys_padded (csv_path : option read_csv_outcome)
    (df : option DataFrame) (k : string) :
  is_Some (get_store_names csv_path df !! k) →
  isdigit k = true ∧ (4 ≤ String.length k)%nat
  ∧ ∃ code, isdigit code = true ∧ k = zfill 4 code.
Proof.
  intros Hk.
  assert (∃ code, isdigit code = true ∧ k = zfill 4 code) as Hp.
  { revert k Hk.
    apply (get_store_names_keys
             (λ k, ∃ code, isdigit code = true ∧ k = zfill 4 code)).
    - by exists "0000".
    - by exists "1997".
    - apply key_formatter_padded. }
  destruct (padded_code_shape k Hp). done.
Qed.

Lemma get_store_names_keys_padded_witness :
  isdigit "0042" = true ∧ (4 ≤ String.length "0042")%nat
  ∧ ∃ code, isdigit code = true ∧ "0042" = zfill 4 code.
Proof.
  apply (get_store_names_keys_padded None
           (Some [["Downtown Store"]; ["x"]; ["#0042"]]) "0042").
  vm_compute. eauto.
Defined.

(** C4 as first stated fails: a five-digit code is kept at five
    characters. *)
Lemma get_store_names_long_key :
  get_store_names None (Some [["Warehouse"]; ["12345"]]) !! "12345"
    = Some "Warehouse"
  ∧ String.length "12345" = 5%nat.
Proof. vm_compute. done. Qed.

(** C9, as amended. The resolver returns the sentinel "0000" or a key of
    the directory, for every directory, identifier and offset; in a
    directory built by the normalizer, which holds "0000", the key returned
    is always found, so the store name is the value of a directory entry
    and never the default of the look-up.  "Unknown" is the value of the
    "0000" entry (and of any row whose long name reads "Unknown"). *)
Theorem extract_key_in_directory (D : gmap string string)
    (csv_path : option read_csv_outcome) (df : option DataFrame)
    (invoice_num : string) (n : Z) :
  (extract_key invoice_num D n = "0000"
   ∨ is_Some (D !! extract_key invoice_num D n))
  ∧ let N := get_store_names csv_path df in
    let key := extract_key invoice_num N n in
    N !! "0000" = Some "Unknown"
    ∧ N !! key = Some (dict_get N key "Unknown").
Proof.
  split; [apply extract_key_sentinel_or_key|]. cbv zeta.
  destruct (directory_sentinels csv_path df) as [H0 _].
  split; [exact H0|]. unfold dict_get.
  destruct (extract_key_sentinel_or_key
              (get_store_names csv_path df) invoice_num n) as [-> | [v Hv]].
  - by rewrite H0.
  - by rewrite Hv.
Qed.

(** C9 as first stated fails in its last part: a row of the mapping table
    whose long name is "Unknown" gives that name to a key other than
    "0000". *)
Lemma unknown_from_a_named_row :
  let N := get_store_names None (Some [["Unknown"]; ["42"]]) in
  let key := extract_key "42ABCDEF" N (-6) in
  key = "0042" ∧ N !! key = Some "Unknown"
  ∧ dict_get N key "Unknown" = "Unknown" ∧ key ≠ "0000".
Proof. vm_compute. done. Qed.

End DirectoryFacts.

(** ** Report sections and the per-store summary *)

Module CostcoFacts.
Import PyStr Utils Float64 Costco.

(** The second try changes the key and the name of a row, never the row. *)
Lemma second_try_row D r : row (second_try D r) = row r.
Proof. unfold second_try. by destruct (String.eqb _ _). Qed.

Lemma resolve_rows_rows D file_rows :
  row <$> resolve_rows D file_rows = file_rows.
Proof.
  unfold resolve_rows. induction file_rows as [|r l IH]; simpl; [done|].
  rewrite second_try_row. simpl. by f_equal.
Qed.

Lemma name_amount_amounts D file_rows :
  (name_amount (resolve_rows D file_rows)).*2 = amount <$> file_rows.
Proof.
  unfold name_amount. rewrite <- list_fmap_compose.
  rewrite <- (resolve_rows_rows D file_rows) at 2.
  by rewrite <- list_fmap_compose.
Qed.

(** *** The groups of [groupby] *)

Section Groups.
Context {A : Type}.
Implicit Types (rows : list (string * A)) (name : string).

Lemma group_of_cons rows k a name :
  group_of name ((k, a) :: rows)
  = if String.eqb k name then a :: group_of name rows else group_of name rows.
Proof. unfold group_of. simpl. by destruct (String.eqb k name). Qed.

Lemma group_of_absent rows name : name ∉ rows.*1 → group_of name rows = [].
Proof.
  induction rows as [|[k a] rows IH]; [done|].
  rewrite fmap_cons, not_elem_of_cons. intros [Hne Hin].
  rewrite group_of_cons. cbn [fst] in Hne.
  destruct (String.eqb_spec k name) as [->|_]; [done|]. by apply IH.
Qed.

Lemma groups_foldl_lookup rows (acc : gmap string (list A)) name :
  foldl (λ acc ra, <[ra.1 := (default [] (acc !! ra.1) ++ [ra.2])%list]> acc)
        acc rows !! name
  = if bool_decide (name ∈ rows.*1)
    then Some (default [] (acc !! name) ++ group_of name rows)%list
    else acc !! name.
Proof.
  revert acc. induction rows as [|[k a] rows IH]; intros acc; [done|].
  cbn [foldl]. rewrite IH, group_of_cons. cbn [fst snd].
  destruct (String.eqb_spec k name) as [->|Hne].
  - rewrite lookup_insert_eq. cbn [default].
    rewrite (bool_decide_eq_true_2 (name ∈ ((name, a) :: rows).*1))
      by (rewrite fmap_cons; apply list_elem_of_here).
    case_bool_decide as Hin.
    + unfold id. by rewrite <- app_assoc.
    + by rewrite (group_of_absent rows name Hin).
  - rewrite lookup_insert_ne by done.
    rewrite fmap_cons. cbn [fst].
    destruct (decide (name ∈ rows.*1)) as [Hin|Hin].
    + rewrite !bool_decide_eq_true_2; [done|by apply list_elem_of_further|done].
    + rewrite !bool_decide_eq_false_2; [done| |done].
      rewrite not_elem_of_cons. split; [congruence|done].
Qed.

(** Every name that occurs has one group, which holds the values of
    exactly its rows; no other name has a group. *)
Lemma groups_lookup rows name :
  groups rows !! name
  = if bool_decide (name ∈ rows.*1) then Some (group_of name rows) else None.
Proof. unfold groups. by rewrite groups_foldl_lookup, lookup_empty. Qed.

Lemma by_name_elem (m : gmap string A) k v :
  (k, v) ∈ by_name m ↔ m !! k = Some v.
Proof.
  unfold by_name. rewrite merge_sort_Permutation. apply elem_of_map_to_list.
Qed.

Lemma by_name_NoDup (m : gmap string A) : NoDup (by_name m).*1.
Proof.
  unfold by_name. rewrite merge_sort_Permutation.
  apply NoDup_fst_map_to_list.
Qed.

Variable group_sum : list A → A.

Lemma groupby_sum_elem rows name v :
  (name, v) ∈ groupby_sum group_sum rows
  ↔ name ∈ rows.*1 ∧ v = group_sum (group_of name rows).
Proof.
  unfold groupby_sum. rewrite by_name_elem, lookup_fmap, groups_lookup.
  case_bool_decide as Hin; simpl; naive_solver.
Qed.

Lemma groupby_sum_NoDup rows : NoDup (groupby_sum group_sum rows).*1.
Proof. apply by_name_NoDup. Qed.

Lemma groupby_sum_names rows name :
  name ∈ (groupby_sum group_sum rows).*1 ↔ name ∈ rows.*1.
Proof.
  rewrite list_elem_of_fmap. split.
  - intros [[k v] [-> Hin]]. by apply groupby_sum_elem in Hin as [? _].
  - intros Hin. exists (name, group_sum (group_of name rows)).
    split; [done|]. by apply groupby_sum_elem.
Qed.

(** The rows of the grouped frame: each name with the sum of its group. *)
Lemma groupby_sum_rows rows :
  groupby_sum group_sum rows
  = (λ name, (name, group_sum (group_of name rows)))
      <$> (groupby_sum group_sum rows).*1.
Proof.
  rewrite <- list_fmap_compose.
  rewrite <- (list_fmap_id (groupby_sum group_sum rows)) at 1.
  apply list_fmap_ext. intros i [k v] Hi. simpl.
  apply list_elem_of_lookup_2, groupby_sum_elem in Hi as [_ ->]. done.
Qed.

(** The rows that carry one name, and the other rows. *)
Lemma rows_split rows name :
  rows.*2 ≡ₚ (group_of name rows
              ++ (List.filter (λ ra, negb (String.eqb ra.1 name)) rows).*2)%list.
Proof.
  induction rows as [|[k a] rows IH]; [done|].
  rewrite group_of_cons. cbn [List.filter fst fmap list_fmap snd].
  destruct (String.eqb k name); cbn [negb].
  - cbn [app]. by constructor.
  - rewrite fmap_cons. cbn [snd]. rewrite <- Permutation_middle.
    by constructor.
Qed.

Lemma group_of_others rows name other :
  other ≠ name →
  group_of other (List.filter (λ ra, negb (String.eqb ra.1 name)) rows)
  = group_of other rows.
Proof.
  intros Hne. induction rows as [|[k a] rows IH]; [done|].
  cbn [List.filter fst]. rewrite group_of_cons.
  destruct (String.eqb_spec k name) as [->|Hk]; cbn [negb].
  - rewrite IH. destruct (String.eqb_spec name other); congruence.
  - rewrite group_of_cons, IH. done.
Qed.

Lemma names_of_others rows name x :
  x ∈ (List.filter (λ ra, negb (String.eqb ra.1 name)) rows).*1
  ↔ x ∈ rows.*1 ∧ x ≠ name.
Proof.
  induction rows as [|[k a] rows IH].
  - simpl. rewrite elem_of_nil. naive_solver.
  - cbn [List.filter fst]. destruct (String.eqb_spec k name) as [->|Hk];
      cbn [negb]; rewrite ?fmap_cons, ?elem_of_cons, IH; cbn [fst];
      naive_solver.
Qed.

(** The groups of a list of distinct names that covers the names of the
    rows hold each row's value once. *)
Lemma groups_partition (names : list string) rows :
  NoDup names → (∀ x, x ∈ names ↔ x ∈ rows.*1) →
  concat ((λ name, group_of name rows) <$> names) ≡ₚ rows.*2.
Proof.
  revert rows. induction names as [|n ns IH]; intros rows Hnd Hcover.
  - destruct rows as [|[k a] rows]; [done|].
    exfalso. apply (not_elem_of_nil k), Hcover. rewrite fmap_cons. left.
  - apply NoDup_cons in Hnd as [Hn Hnd].
    rewrite fmap_cons. cbn [concat]. rewrite (rows_split rows n).
    apply Permutation_app_head.
    rewrite <- (IH _ Hnd).
    + apply Permutation_refl'. f_equal. apply list_fmap_ext.
      intros i other Hi. symmetry. apply group_of_others.
      intros ->. apply Hn. by eapply list_elem_of_lookup_2.
    + intros x. rewrite names_of_others, <- Hcover, elem_of_cons.
      split; [intros Hx; split; [by right|by intros ->]|].
      intros [[->|Hx] Hne]; done.
Qed.

Lemma groupby_sum_partition rows :
  concat ((λ name, group_of name rows) <$> (groupby_sum group_sum rows).*1)
  ≡ₚ rows.*2.
Proof.
  apply groups_partition; [apply groupby_sum_NoDup|].
  intros x. apply groupby_sum_names.
Qed.

End Groups.

(** *** Exact sums

    Where the additions are exact (associative and commutative, with a
    unit), the total of the grouped frame is the total of the rows. *)

Section Exact.
Context {A : Type} (add : A → A → A) (unit : A).
Hypothesis add_assoc : ∀ x y z, add x (add y z) = add (add x y) z.
Hypothesis add_comm : ∀ x y, add x y = add y x.
Hypothesis add_unit : ∀ x, add unit x = x.

Lemma exact_app (l k : list A) :
  foldr add unit (l ++ k)%list = add (foldr add unit l) (foldr add unit k).
Proof.
  induction l as [|x l IH]; simpl; [by rewrite add_unit|].
  by rewrite IH, add_assoc.
Qed.

Lemma exact_concat (ls : list (list A)) :
  foldr add unit (concat ls) = foldr add unit (foldr add unit <$> ls).
Proof.
  induction ls as [|l ls IH]; [done|].
  cbn [concat]. rewrite exact_app, IH. done.
Qed.

Lemma exact_perm (l k : list A) :
  l ≡ₚ k → foldr add unit l = foldr add unit k.
Proof.
  induction 1 as [|x l k _ IH|x y l|l k m _ IH1 _ IH2]; simpl.
  - done.
  - by rewrite IH.
  - rewrite !add_assoc. by rewrite (add_comm y x).
  - by rewrite IH1.
Qed.

Lemma exact_groupby_total (rows : list (string * A)) :
  summary_total (foldr add unit) (groupby_sum (foldr add unit) rows)
  = foldr add unit rows.*2.
Proof.
  unfold summary_total.
  rewrite (groupby_sum_rows (foldr add unit) rows) at 1.
  rewrite <- list_fmap_compose.
  rewrite <- (exact_perm _ _ (groupby_sum_partition (foldr add unit) rows)).
  rewrite exact_concat. f_equal.
  exact (list_fmap_compose (λ name, group_of name rows) (foldr add unit) _).
Qed.

End Exact.

(** C2, as amended. For every list of parsed rows and every directory,
    grouping by resolved store name loses or duplicates no amount: the
    StoreSummary has one row for each store name that a parsed row
    resolves to ("Unknown" included) and for no other name, the row holds
    the sum pandas forms of the amounts of exactly the parsed rows of that
    name, and the groups of the summary's names together hold the amount
    of each parsed row once. Where the amounts are read as exact numbers
    and added exactly (an addition that is associative and commutative,
    with a unit), the amounts of the summary add up to the sum of the
    amounts of the rows; the binary64 totals of the code agree only up to
    rounding. *)
Theorem store_summary_groups (group_sum : list float64 → float64)
    (D : gmap string string) (file_rows : list TransactionRow) :
  let named := name_amount (resolve_rows D file_rows) in
  let df2 := store_summary group_sum D file_rows in
  NoDup df2.*1
  ∧ (∀ name, name ∈ df2.*1 ↔ name ∈ named.*1)
  ∧ (∀ name v, (name, v) ∈ df2
       ↔ name ∈ named.*1 ∧ v = group_sum (group_of name named))
  ∧ concat ((λ name, group_of name named) <$> df2.*1) ≡ₚ amount <$> file_rows
  ∧ ∀ (A : Type) (add : A → A → A) (unit : A) (exact : float64 → A),
      (∀ x y z, add x (add y z) = add (add x y) z) →
      (∀ x y, add x y = add y x) →
      (∀ x, add unit x = x) →
      summary_total (foldr add unit)
        (groupby_sum (foldr add unit) (prod_map id exact <$> named))
      = foldr add unit (exact <$> (amount <$> file_rows)).
Proof.
  intros named df2. split_and!.
  - apply groupby_sum_NoDup.
  - intros name. apply groupby_sum_names.
  - intros name v. apply groupby_sum_elem.
  - rewrite <- (name_amount_amounts D file_rows).
    apply groupby_sum_partition.
  - intros A add unit exact Hassoc Hcomm Hunit.
    rewrite exact_groupby_total by done.
    rewrite <- (name_amount_amounts D file_rows).
    by rewrite <- !list_fmap_compose.
Qed.

(** The same three rows as the counterexample below, their amounts read as
    the rationals the floats denote and added exactly: both totals are the
    same rational. *)
Lemma exact_totals_agree :
  let named := name_amount (resolve_rows Payments.directory Payments.three_rows) in
  summary_total (foldr Qcplus 0%Qc)
    (groupby_sum (foldr Qcplus 0%Qc) (prod_map id exact_value <$> named))
  = foldr Qcplus 0%Qc (exact_value <$> (amount <$> Payments.three_rows)).
Proof. vm_compute. done. Qed.

(** C2, the counterexample. Three parsed rows with the amounts 0.1, 0.3
    and 0.7, of which the first and the third resolve to the store "A" and
    the second to the store "B". Added in the order of the rows the
    amounts give 1.1; the summary holds 0.1 + 0.7 for "A" and 0.3 for "B",
    which add up to 1.0999999999999999. On columns this short the sums
    of pandas are the terms added one after the other. *)
Lemma store_summary_total_rounds :
  let D := Payments.directory in
  let file_rows := Payments.three_rows in
  let df2 := store_summary seq_sum D file_rows in
  name_amount (resolve_rows D file_rows)
    = [("A", decimal 1 1); ("B", decimal 3 1); ("A", decimal 7 1)]
  ∧ df2 = [("A", add64 (decimal 1 1) (decimal 7 1)); ("B", decimal 3 1)]
  ∧ rows_total seq_sum file_rows
    = SpecFloat.S754_finite false 4953959590107546 (-52)
  ∧ summary_total seq_sum df2
    = SpecFloat.S754_finite false 4953959590107545 (-52)
  ∧ eqb64 (rows_total seq_sum file_rows) (decimal 11 1) = true
  ∧ eqb64 (summary_total seq_sum df2) (rows_total seq_sum file_rows) = false
  ∧ summary_total seq_sum df2 ≠ rows_total seq_sum file_rows.
Proof. vm_compute. split_and!; done. Qed.


(** *** The lines of the first page *)

Lemma scan_header_skip (skipped rest acc : list string) :
  Forall (λ l, startswith "Date" l = false
               ∧ startswith "Payment" l = false) skipped →
  scan_header (skipped ++ rest)%list acc = scan_header rest acc.
Proof.
  induction 1 as [|l ls [Hd Hp] _ IH]; [done|].
  cbn [app scan_header]. by rewrite Hd, Hp.
Qed.

(** One matching "Date" line, then the first matching "Payment" line:
    the two values collected are the date and the payment id. *)
Lemma scan_header_date_then_payment
    (before between after : list string) (dline pline d p : string) :
  Forall (λ l, startswith "Date" l = false
               ∧ startswith "Payment" l = false) before →
  Forall (λ l, startswith "Date" l = false
               ∧ startswith "Payment" l = false) between →
  startswith "Date" dline = true → extract_mm_dd dline = (true, Some d) →
  startswith "Date" pline = false → startswith "Payment" pline = true →
  extract_payment_id pline = (true, Some p) →
  ∀ file_filename,
    name_of (scan_header
               (before ++ dline :: between ++ pline :: after)%list [])
            file_filename
    = d ++ " #" ++ p.
Proof.
  intros Hb Hm Hd Hd' Hp Hp' Hp'' f.
  rewrite (scan_header_skip _ _ _ Hb). cbn [scan_header].
  rewrite Hd, Hd'. rewrite (scan_header_skip _ _ _ Hm). cbn [scan_header].
  by rewrite Hp, Hp', Hp''.
Qed.

(** *** Section names *)

Lemma name_of_short (date_check_num : list string) file_filename :
  (length date_check_num < 2)%nat →
  name_of date_check_num file_filename = file_filename.
Proof. destruct date_check_num as [|? [|? ?]]; simpl; [done|done|lia]. Qed.

Lemma name_of_pair d0 d1 rest file_filename :
  name_of (d0 :: d1 :: rest) file_filename = d0 ++ " #" ++ d1.
Proof. reflexivity. Qed.

(** One "Date" line and then one "Payment" line: the name is made of the
    date and the payment id. *)
Lemma section_name_date_then_payment :
  section_name Pages.date_then_payment "report.pdf" = "01/04 #123456".
Proof. vm_compute. reflexivity. Qed.

(** Nothing extracted, or the payment id alone: the uploaded name. *)
Lemma section_name_fallback :
  section_name Pages.no_header "report.pdf" = "report.pdf"
  ∧ section_name Pages.payment_then_date "report.pdf" = "report.pdf".
Proof. vm_compute. done. Qed.

(** C8: the code at the failing input. With two lines that begin with
    "Date" before the "Payment" line, both extractions succeed and the
    section is named after the two dates, the payment id being left out;
    with no payment id at all the name is still not the uploaded one. *)
Theorem section_name_two_date_lines :
  extract_mm_dd "Date: 01/04/2026" = (true, Some "01/04")
  ∧ extract_mm_dd "Date Due: 02/05/2026" = (true, Some "02/05")
  ∧ extract_payment_id "Payment #123456" = (true, Some "123456")
  ∧ extract_payment_id "Payment pending" = (false, None)
  ∧ section_name Pages.two_dates_then_payment "report.pdf" = "01/04 #02/05"
  ∧ section_name Pages.two_dates_no_payment "report.pdf" = "01/04 #02/05".
Proof. vm_compute. done. Qed.

End CostcoFacts.

(** ** The sales block parser *)

Module SalesFacts.
Import PyStr Sales Sheets.

(** *** Ordered dictionaries *)









(** *** The scan *)

Section Scan.
Variable float_of_text : string → option pyfloat.





(** The scan of a list of rows is the scan of its first part followed by
    the scan of the rest from the state reached. *)
Lemma scan_app df rows1 rows2 sales j :
  scan float_of_text df (rows1 ++ rows2) sales j
  = sj ← scan float_of_text df rows1 sales j;
    scan float_of_text df rows2 sj.1 sj.2.
Proof.
  revert sales j. induction rows1 as [|[i r] rows1 IH]; intros sales j;
    cbn [scan app mbind result_bind fst snd].
  - done.
  - destruct (i <=? j)%Z; [apply IH|].
    destruct (Customer r) as [|customer|]; try apply IH.
    destruct (startswith "salesperson" (lower customer)); [|apply IH].
    destruct (split " " customer) as [|w0 [|sp ws]]; try done.
    destruct (block float_of_text df sp sales i) as [s1|]; [|done].
    cbn [mbind result_bind]. apply IH.
Qed.

End Scan.

(** *** Retained and dropped salespersons *)






(** *** The claims on the parser *)



(** C6, as amended. The row "Salesperson John" followed by the rows
    "Period To Date", "Year To Date", "Prior Year" with costs 100, 200, 50
    gives John the block {period-to-dat: 100, year-to-dat: 200,
    prior-yea: 50}: each key is the lower-cased, hyphen-joined label with
    its last character dropped.  The block {period-to-date: 100,
    year-to-date: 200, prior-year: 50} comes from labels that carry one more
    character, as in "Period To Date:".  Either block is retained, its sum
    being nonzero. *)
Theorem john_block (float_of_text : string → option pyfloat) :
  let plain := [("period-to-dat", Fin (num 100));
                ("year-to-dat", Fin (num 200));
                ("prior-yea", Fin (num 50))] in
  let colon := [("period-to-date", Fin (num 100));
                ("year-to-date", Fin (num 200));
                ("prior-year", Fin (num 50))] in
  parse_blocks float_of_text (dropna john_plain) = Ok [("John", plain)]
  ∧ parse_blocks float_of_text (dropna john_colon) = Ok [("John", colon)]
  ∧ is_zero (od_sum plain) = false
  ∧ is_zero (od_sum colon) = false
  ∧ od_keys (sales_table [("John", plain)]) = ["John"]
  ∧ sales_table [("John", colon)] = [("John", colon)].
Proof. vm_compute. done. Qed.

(** C6 as first stated fails: with the labels as written the block does
    not have the keys "period-to-date", "year-to-date", "prior-year". *)
Lemma john_block_keys_lose_a_letter :
  parse_blocks no_text_floats (dropna john_plain)
  ≠ Ok [("John", [("period-to-date", Fin (num 100));
                  ("year-to-date", Fin (num 200));
                  ("prior-year", Fin (num 50))])].
Proof. vm_compute. intros [=]. Qed.

(** C10, as amended. When the scan reaches a row that no earlier block has
    consumed and whose Customer cell starts with "salesperson"
    (case-insensitively) and is one space-delimited token, the parser
    raises [IndexError]. *)
Theorem one_token_salesperson_raises
    (float_of_text : string → option pyfloat) (df before after : frame)
    (i : Z) (r : row) (sales : odict (odict pyfloat)) (j : Z)
    (customer : string) :
  df = (before ++ (i, r) :: after)%list →
  scan float_of_text df before [] (-1)%Z = Ok (sales, j) →
  (j < i)%Z →
  Customer r = CStr customer →
  startswith "salesperson" (lower customer) = true →
  length (split " " customer) = 1%nat →
  parse_blocks float_of_text df = Raise IndexError.
Proof.
  intros Hdf Hscan Hj Hc Hs Hl. unfold parse_blocks.
  rewrite Hdf at 2. rewrite scan_app, Hscan.
  cbn [mbind result_bind fst snd scan].
  destruct (Z.leb_spec i j); [lia|]. rewrite Hc, Hs.
  by destruct (split " " customer) as [|w0 [|w1 ws]].
Qed.

Lemma one_token_salesperson_raises_witness :
  parse_blocks no_text_floats (dropna token_at_block_start) = Raise IndexError.
Proof.
  apply (one_token_salesperson_raises no_text_floats
           (dropna token_at_block_start) (dropna john_colon) []
           4%Z (line "Salesperson" CNaN)
           [("John", [("period-to-date", Fin (num 100));
                      ("year-to-date", Fin (num 200));
                      ("prior-year", Fin (num 50))])] 3%Z "Salesperson");
    [reflexivity | vm_compute; reflexivity | lia | reflexivity
    | reflexivity | reflexivity].
Defined.

(** C10 as first stated fails: a one-token "Salesperson" cell that lies
    inside the three rows of an earlier block is read as a metric row, and
    the parser returns. *)
Lemma one_token_inside_block_is_a_metric :
  (∃ i, loc (dropna token_inside_block) i = Some (line "Salesperson" (CNum (num 100))))
  ∧ startswith "salesperson" (lower "Salesperson") = true
  ∧ split " " "Salesperson" = ["Salesperson"]
  ∧ parse_blocks no_text_floats (dropna token_inside_block)
    = Ok [("John", [("salesperso", Fin (num 100));
                    ("year-to-date", Fin (num 200));
                    ("prior-year", Fin (num 50))])].
Proof. split; [by exists 1%Z|]. vm_compute. done. Qed.

End SalesFacts.

(** * Further properties *)

(** ** More on strings *)

Module PyTextFacts.
Import PyStr PyText PyStrFacts.

#[local] Arguments String.append : simpl nomatch.

Lemma digit_not_space c : is_digit c = true → is_space c = false.
Proof.
  destruct c as [[] [] [] [] [] [] [] []]; vm_compute;
    (reflexivity || (intros H; discriminate H)).
Qed.

Lemma digit_not_hash c : is_digit c = true → char_in c "#" = false.
Proof.
  destruct c as [[] [] [] [] [] [] [] []]; vm_compute;
    (reflexivity || (intros H; discriminate H)).
Qed.

Lemma lower_n c :
  lower_char c = "n"%char → is_digit c = false ∧ char_in c "#" = false.
Proof.
  destruct c as [[] [] [] [] [] [] [] []]; vm_compute;
    (split; reflexivity) || (intros H; discriminate H).
Qed.

Lemma lower_not_space c : is_space c = false → is_space (lower_char c) = false.
Proof.
  destruct c as [[] [] [] [] [] [] [] []]; vm_compute;
    (reflexivity || (intros H; discriminate H)).
Qed.

Lemma upper_not_space c : is_space c = false → is_space (upper_char c) = false.
Proof.
  destruct c as [[] [] [] [] [] [] [] []]; vm_compute;
    (reflexivity || (intros H; discriminate H)).
Qed.

(** [no_space s]: no character of [s] is whitespace. *)
Lemma char_in_app c (s t : string) :
  char_in c (s ++ t) = char_in c s || char_in c t.
Proof.
  induction s as [|a s IH]; simpl; [done|]. rewrite IH. apply orb_assoc.
Qed.

Lemma lstrip_space_fixed c s :
  is_space c = false → lstrip_space (String c s) = String c s.
Proof. intros H. simpl. by rewrite H. Qed.

Lemma rstrip_space_idem s : rstrip_space (rstrip_space s) = rstrip_space s.
Proof.
  induction s as [|c s IH]; simpl; [done|].
  destruct (rstrip_space s) as [|d r] eqn:Hr.
  - destruct (is_space c) eqn:Hc; simpl; [done|]. by rewrite Hc.
  - cbn [rstrip_space]. cbn [rstrip_space] in IH. by rewrite IH.
Qed.

Lemma rstrip_space_head c s :
  is_space c = false →
  ∃ r, rstrip_space (String c s) = String c r.
Proof.
  intros Hc. simpl. destruct (rstrip_space s); rewrite ?Hc; eauto.
Qed.

Lemma lstrip_space_head s :
  lstrip_space s = "" ∨ ∃ c r, lstrip_space s = String c r ∧ is_space c = false.
Proof.
  induction s as [|c s IH]; simpl; [by left|].
  destruct (is_space c) eqn:Hc; [exact IH|]. right. eauto.
Qed.

(** [strip] is idempotent. *)
Lemma strip_idem s : strip (strip s) = strip s.
Proof.
  unfold strip. destruct (lstrip_space_head s) as [->|(c & r & -> & Hc)];
    [done|].
  destruct (rstrip_space_head c r Hc) as (r' & Hr). rewrite Hr.
  rewrite (lstrip_space_fixed _ _ Hc), <- Hr. apply rstrip_space_idem.
Qed.

(** A string without whitespace is left as it is by [strip]. *)
Lemma rstrip_space_no_space s :
  (∀ c, char_in c s = true → is_space c = false) → rstrip_space s = s.
Proof.
  induction s as [|a s IH]; intros H; simpl; [done|].
  rewrite IH.
  - destruct s; [|done]. rewrite (H a); [done|]. simpl.
    by rewrite Ascii.eqb_refl.
  - intros c Hc. apply H. simpl. rewrite Hc. apply orb_true_r.
Qed.

Lemma strip_no_space s :
  (∀ c, char_in c s = true → is_space c = false) → strip s = s.
Proof.
  intros H. unfold strip. destruct s as [|a s]; [done|].
  rewrite lstrip_space_fixed.
  - by apply rstrip_space_no_space.
  - apply H. simpl. by rewrite Ascii.eqb_refl.
Qed.

Lemma all_digits_char c s :
  all_digits s = true → char_in c s = true → is_digit c = true.
Proof.
  induction s as [|a s IH]; simpl; [discriminate|].
  intros [Ha Hs]%andb_prop [->%Ascii.eqb_eq|Hc]%orb_prop; auto.
Qed.

Lemma strip_digits s : all_digits s = true → strip s = s.
Proof.
  intros H. apply strip_no_space. intros c Hc.
  apply digit_not_space. by apply (all_digits_char c s).
Qed.

Lemma lstrip_not_starting chars s :
  startswith chars s = false → String.length chars = 1%nat →
  lstrip chars s = s.
Proof.
  destruct chars as [|a [|b chars]]; try discriminate. intros H _.
  destruct s as [|c s]; [done|]. simpl in *.
  rewrite andb_true_r in H. rewrite orb_false_r.
  by rewrite Ascii.eqb_sym, H.
Qed.

End PyTextFacts.

(** ** More on the resolver and the directory *)

Module UtilsMoreFacts.
Import PyStr PyText Utils PyStrFacts PyTextFacts ResolverFacts DirectoryFacts.

#[local] Arguments String.append : simpl nomatch.

(** An identifier no longer than the number of characters cut off has
    nothing left to search: the resolver returns "0000". *)
Theorem extract_key_short_invoice (D : gmap string string)
    (invoice_num : string) (n : Z) :
  (n < 0)%Z →
  (Z.of_nat (String.length invoice_num) ≤ - n)%Z →
  extract_key invoice_num D n = "0000".
Proof.
  intros Hn Hlen. apply extract_key_no_digits. unfold slice_to.
  destruct (Z.ltb_spec n 0); [|lia].
  replace (Z.to_nat (Z.max 0 (Z.of_nat (String.length invoice_num) + n)))
    with 0%nat by lia.
  by destruct invoice_num.
Qed.

Lemma extract_key_short_invoice_witness :
  extract_key "123456" (<["1234" := "Store A"]> ∅) (-6) = "0000".
Proof.
  apply extract_key_short_invoice; [lia|]. vm_compute. discriminate.
Defined.

Lemma contains_same_keys (D D' : gmap string string) k :
  (∀ k, is_Some (D !! k) ↔ is_Some (D' !! k)) → contains D k = contains D' k.
Proof.
  intros H. unfold contains. apply bool_decide_ext, H.
Qed.

(** The resolver reads the keys of the directory only: two directories
    with the same keys resolve every identifier alike, whatever the store
    names. *)
Theorem extract_key_same_keys (D D' : gmap string string)
    (invoice_num : string) (n : Z) :
  (∀ k, is_Some (D !! k) ↔ is_Some (D' !! k)) →
  extract_key invoice_num D n = extract_key invoice_num D' n.
Proof.
  intros H. unfold extract_key.
  destruct (String.eqb invoice_num ""); [done|].
  destruct (findall_digits (slice_to n invoice_num)) as [|run rest]; [done|].
  cbv zeta. by rewrite !(contains_same_keys D D' _ H).
Qed.

Lemma extract_key_same_keys_witness :
  extract_key "0042ABCDEF" (<["0042" := "Downtown"]> ∅) (-6)
  = extract_key "0042ABCDEF" (<["0042" := "Uptown"]> ∅) (-6).
Proof.
  apply extract_key_same_keys. intros k.
  destruct (decide ("0042" = k)) as [<-|Hk].
  - rewrite !lookup_insert_eq. done.
  - rewrite !lookup_insert_ne by done. done.
Defined.

Lemma nan_is_no_code u :
  lower u = "nan" → isdigit (lstrip "#" u) = false.
Proof.
  destruct u as [|a u]; [discriminate|]. simpl lower.
  intros [= Ha _]. destruct (lower_n a Ha) as [Hd Hh].
  cbn [lstrip]. rewrite Hh. cbn [isdigit all_digits]. by rewrite Hd.
Qed.

Lemma key_formatter_cases (s : string) :
  key_formatter s
  = if isdigit (lstrip "#" (strip s)) then zfill 4 (lstrip "#" (strip s))
    else "-1".
Proof.
  unfold key_formatter. set (u := strip s).
  destruct (String.eqb_spec u "") as [->|Hu]; [done|].
  destruct (String.eqb_spec (lower u) "nan") as [Hnan|_].
  { cbn [orb]. by rewrite (nan_is_no_code u Hnan). }
  cbn [orb]. destruct (startswith "#" u) eqn:Hs; [done|].
  by rewrite (lstrip_not_starting "#" u Hs).
Qed.

(** What [key_formatter] computes: the cell is trimmed, its leading "#"
    characters are removed, and what is left is padded to four when it is a
    non-empty string of digits; anything else is dropped ("-1").  The test
    for "nan" and the test for a leading "#" change nothing. *)
Theorem key_formatter_digits (s : string) :
  key_formatter s
  = if isdigit (lstrip "#" (strip s)) then zfill 4 (lstrip "#" (strip s))
    else "-1".
Proof. apply key_formatter_cases. Qed.

Lemma key_formatter_of_code k :
  all_digits k = true → (4 ≤ String.length k)%nat → key_formatter k = k.
Proof.
  intros Hd Hl. rewrite key_formatter_cases, (strip_digits k Hd).
  assert (lstrip "#" k = k) as ->.
  { destruct k as [|a k]; [done|]. simpl in Hd.
    apply andb_prop in Hd as [Ha _]. cbn [lstrip].
    by rewrite (digit_not_hash a Ha). }
  assert (isdigit k = true) as ->.
  { destruct k; [simpl in Hl; lia|exact Hd]. }
  rewrite zfill_digits by done.
  by replace (4 - String.length k)%nat with 0%nat by lia.
Qed.

(** Formatting a formatted key changes nothing: the keys of a directory
    can be fed back as codes. *)
Theorem key_formatter_idempotent (s : string) :
  key_formatter (key_formatter s) = key_formatter s.
Proof.
  destruct (String.eqb_spec (key_formatter s) "-1") as [->|Hne]; [done|].
  destruct (key_formatter_padded s Hne) as (code & Hd & Heq).
  destruct (padded_code_shape (key_formatter s)) as [Hk Hl]; [by exists code|].
  apply key_formatter_of_code; [by apply isdigit_all_digits|done].
Qed.

(** *** Where the entries of the directory come from *)

Lemma fill_rows_foldl long_col short_col (acc : gmap string string) :
  fill_rows long_col short_col acc
  = foldl (λ acc xy,
             if String.eqb (key_formatter xy.2) "-1" then acc
             else <[key_formatter xy.2 := strip xy.1]> acc)
          acc (zip long_col short_col).
Proof. reflexivity. Qed.

Lemma rows_lookup_absent (rows : list (string * string))
    (acc : gmap string string) k :
  (∀ x y, (x, y) ∈ rows → key_formatter y ≠ k) →
  foldl (λ acc xy,
           if String.eqb (key_formatter xy.2) "-1" then acc
           else <[key_formatter xy.2 := strip xy.1]> acc)
        acc rows !! k = acc !! k.
Proof.
  revert acc. induction rows as [|[x y] rows IH]; intros acc H; [done|].
  cbn [foldl fst snd]. rewrite IH.
  - destruct (String.eqb (key_formatter y) "-1"); [done|].
    rewrite lookup_insert_ne; [done|]. apply (H x y). apply list_elem_of_here.
  - intros x' y' Hin. apply (H x' y'). by apply list_elem_of_further.
Qed.

Lemma rows_lookup_origin (rows : list (string * string))
    (acc : gmap string string) k v :
  foldl (λ acc xy,
           if String.eqb (key_formatter xy.2) "-1" then acc
           else <[key_formatter xy.2 := strip xy.1]> acc)
        acc rows !! k = Some v →
  acc !! k = Some v
  ∨ ∃ x y, (x, y) ∈ rows ∧ key_formatter y = k ∧ k ≠ "-1" ∧ v = strip x.
Proof.
  revert acc. induction rows as [|[x y] rows IH]; intros acc; [by left|].
  cbn [foldl fst snd]. intros [H|(x' & y' & Hin & Hk)]%IH.
  - destruct (String.eqb_spec (key_formatter y) "-1") as [|Hne]; [by left|].
    destruct (decide (key_formatter y = k)) as [<-|Hk].
    + rewrite lookup_insert_eq in H. injection H as <-.
      right. exists x, y. split; [apply list_elem_of_here|done].
    + rewrite lookup_insert_ne in H by done. by left.
  - right. exists x', y'. split; [by apply list_elem_of_further|done].
Qed.

Lemma rows_lookup_last (before after : list (string * string))
    (acc : gmap string string) x y :
  key_formatter y ≠ "-1" →
  (∀ x' y', (x', y') ∈ after → key_formatter y' ≠ key_formatter y) →
  foldl (λ acc xy,
           if String.eqb (key_formatter xy.2) "-1" then acc
           else <[key_formatter xy.2 := strip xy.1]> acc)
        acc (before ++ (x, y) :: after)%list !! key_formatter y
  = Some (strip x).
Proof.
  intros Hne Hafter. rewrite foldl_app. cbn [foldl fst snd].
  rewrite rows_lookup_absent by done.
  destruct (String.eqb_spec (key_formatter y) "-1"); [done|].
  apply lookup_insert_eq.
Qed.

Lemma add_missed_other (m : gmap string string) k :
  k ≠ "0000" → k ≠ "1997" → add_missed m !! k = m !! k.
Proof.
  intros H0 H1. unfold add_missed. by rewrite !lookup_insert_ne.
Qed.

(** The columns the loop reads: the long name in the first, the code in
    the third when there are three or more, else in the second. *)
Lemma get_store_names_table (d : DataFrame) long_col short_col :
  d !! 0%nat = Some long_col →
  d !! (if (3 <=? length d)%nat then 2%nat else 1%nat) = Some short_col →
  get_store_names None (Some d) = add_missed (fill_rows long_col short_col ∅).
Proof.
  destruct d as [|c0 [|c1 [|c2 d]]]; simpl; try done.
  - by intros [= ->] [= ->].
  - by intros [= ->] [= ->].
Qed.

(** No entry is invented: an entry of the directory is one of the two
    sentinels, or it is the trimmed long name of a row of the table whose
    code formats to the key. *)
Theorem get_store_names_origin (d : DataFrame) (long_col short_col : list string)
    (k v : string) :
  d !! 0%nat = Some long_col →
  d !! (if (3 <=? length d)%nat then 2%nat else 1%nat) = Some short_col →
  get_store_names None (Some d) !! k = Some v →
  (k = "0000" ∧ v = "Unknown") ∨ (k = "1997" ∧ v = "C991997")
  ∨ ∃ x y, (x, y) ∈ zip long_col short_col
           ∧ key_formatter y = k ∧ v = strip x.
Proof.
  intros H0 H1. rewrite (get_store_names_table d _ _ H0 H1).
  destruct (add_missed_lookup (fill_rows long_col short_col ∅)) as [Hz Hl].
  destruct (decide (k = "0000")) as [->|Hk0].
  { rewrite Hz. intros [= <-]. by left. }
  destruct (decide (k = "1997")) as [->|Hk1].
  { rewrite Hl. intros [= <-]. right. by left. }
  rewrite add_missed_other, fill_rows_foldl by done.
  intros [H|(x & y & Hin & Hk & _ & Hv)]%rows_lookup_origin.
  - by rewrite lookup_empty in H.
  - right. right. by exists x, y.
Qed.

Lemma get_store_names_origin_witness :
  ("0042" = "0000" ∧ "Downtown Store" = "Unknown")
  ∨ ("0042" = "1997" ∧ "Downtown Store" = "C991997")
  ∨ ∃ x y, (x, y) ∈ zip ["Downtown Store"] ["#0042"]
           ∧ key_formatter y = "0042" ∧ "Downtown Store" = strip x.
Proof.
  apply (get_store_names_origin [["Downtown Store"]; ["x"]; ["#0042"]]);
    [reflexivity | reflexivity | vm_compute; reflexivity].
Defined.

(** Later rows win: the directory holds, for a code that is not one of the
    two sentinels, the trimmed long name of the last row with that code. *)
Theorem get_store_names_last_row_wins (d : DataFrame)
    (long_col short_col : list string)
    (before after : list (string * string)) (x y : string) :
  d !! 0%nat = Some long_col →
  d !! (if (3 <=? length d)%nat then 2%nat else 1%nat) = Some short_col →
  zip long_col short_col = (before ++ (x, y) :: after)%list →
  key_formatter y ≠ "-1" →
  key_formatter y ≠ "0000" →
  key_formatter y ≠ "1997" →
  (∀ x' y', (x', y') ∈ after → key_formatter y' ≠ key_formatter y) →
  get_store_names None (Some d) !! key_formatter y = Some (strip x).
Proof.
  intros H0 H1 Hzip Hne Hk0 Hk1 Hafter.
  rewrite (get_store_names_table d _ _ H0 H1), add_missed_other by done.
  rewrite fill_rows_foldl, Hzip. by apply rows_lookup_last.
Qed.

Lemma get_store_names_last_row_wins_witness :
  get_store_names None
    (Some [["Old name"; " New name "; "Other"]; ["42"; "#0042"; "7"]])
    !! key_formatter "#0042"
  = Some (strip " New name ").
Proof.
  apply (get_store_names_last_row_wins
           [["Old name"; " New name "; "Other"]; ["42"; "#0042"; "7"]]
           ["Old name"; " New name "; "Other"] ["42"; "#0042"; "7"]
           [("Old name", "42")] [("Other", "7")]);
    [reflexivity | reflexivity | reflexivity
    | vm_compute; discriminate | vm_compute; discriminate
    | vm_compute; discriminate |].
  intros x' y' [= -> ->]%list_elem_of_singleton. vm_compute. discriminate.
Defined.

(** *** The two header patterns *)

Lemma one_or_two_digits_shape s d :
  one_or_two_digits s = Some d →
  ∃ post, s = d ++ post ∧ isdigit d = true ∧ (String.length d ≤ 2)%nat.
Proof.
  destruct s as [|a [|b s]]; simpl; [done| |].
  - destruct (is_digit a) eqn:Ha; [|done]. intros [= <-].
    exists "". simpl. rewrite Ha. auto.
  - destruct (is_digit a) eqn:Ha; [|done].
    destruct (is_digit b) eqn:Hb; intros [= <-].
    + exists s. simpl. rewrite Ha, Hb. auto.
    + exists (String b s). simpl. rewrite Ha. auto.
Qed.

Lemma slash_day_shape s g :
  slash_day s = Some g →
  ∃ d post, g = String "/"%char d ∧ s = String "/"%char (d ++ post)
            ∧ isdigit d = true ∧ (String.length d ≤ 2)%nat.
Proof.
  destruct s as [|c s]; simpl; [done|].
  destruct (Ascii.eqb_spec c "/"%char) as [->|]; [|done].
  intros (d & (post & -> & Hd & Hl)%one_or_two_digits_shape & ->)%fmap_Some.
  by exists d, post.
Qed.

Lemma match_mm_dd_shape s g :
  match_mm_dd s = Some g →
  ∃ m d post, g = m ++ "/" ++ d ∧ s = m ++ "/" ++ d ++ post
              ∧ isdigit m = true ∧ isdigit d = true
              ∧ (String.length m ≤ 2)%nat ∧ (String.length d ≤ 2)%nat.
Proof.
  destruct s as [|a s1]; simpl; [done|].
  destruct (is_digit a) eqn:Ha; [|done].
  destruct (match s1 with
            | "" => None
            | String b s2 =>
                if is_digit b
                then (λ d, String a (String b d)) <$> slash_day s2
                else None
            end) as [m2|] eqn:Htwo.
  - intros [= <-]. destruct s1 as [|b s2]; [done|].
    destruct (is_digit b) eqn:Hb; [|done].
    apply fmap_Some in Htwo
      as (g & (d & post & -> & -> & Hd & Hl)%slash_day_shape & ->).
    exists (String a (String b "")), d, post. simpl. rewrite Ha, Hb.
    repeat split; auto.
  - intros (g' & (d & post & -> & -> & Hd & Hl)%slash_day_shape & ->)%fmap_Some.
    exists (String a ""), d, post. simpl. rewrite Ha. repeat split; auto.
Qed.

Lemma search_mm_dd_shape s g :
  search_mm_dd s = Some g →
  ∃ pre m d post, g = m ++ "/" ++ d ∧ s = pre ++ m ++ "/" ++ d ++ post
                  ∧ isdigit m = true ∧ isdigit d = true
                  ∧ (String.length m ≤ 2)%nat ∧ (String.length d ≤ 2)%nat.
Proof.
  induction s as [|c s IH]; cbn [search_mm_dd].
  - simpl. discriminate.
  - destruct (match_mm_dd (String c s)) as [g'|] eqn:Hm.
    + intros [= ->].
      destruct (match_mm_dd_shape _ _ Hm) as (m & d & post & ? & ? & ?).
      by exists "", m, d, post.
    + intros (pre & m & d & post & -> & -> & ?)%IH.
      by exists (String c pre), m, d, post.
Qed.

(** [extract_mm_dd] finds nothing, or returns a part of the text made of
    one or two digits, a slash, and one or two digits; its flag says which
    of the two holds. *)
Theorem extract_mm_dd_shape (text : string) :
  extract_mm_dd text = (false, None)
  ∨ ∃ pre m d post,
      extract_mm_dd text = (true, Some (m ++ "/" ++ d))
      ∧ text = pre ++ m ++ "/" ++ d ++ post
      ∧ isdigit m = true ∧ isdigit d = true
      ∧ (String.length m ≤ 2)%nat ∧ (String.length d ≤ 2)%nat.
Proof.
  unfold extract_mm_dd. destruct (search_mm_dd text) as [g|] eqn:Hs;
    [|by left].
  right. destruct (search_mm_dd_shape _ _ Hs) as (pre & m & d & post & -> & ?).
  by exists pre, m, d, post.
Qed.

Lemma search_payment_id_shape s g :
  search_payment_id s = Some g →
  ∃ pre post, s = pre ++ "#" ++ g ++ post ∧ isdigit g = true
              ∧ take_digits post = "".
Proof.
  induction s as [|c s IH]; cbn [search_payment_id match_payment_id]; [done|].
  destruct (Ascii.eqb_spec c "#"%char) as [->|Hc].
  - destruct (take_digits s) as [|a r] eqn:Ht.
    + intros (pre & post & -> & ?)%IH. by exists (String "#"%char pre), post.
    + intros [= <-]. destruct (take_digits_split s) as (post & Hs & Hp).
      exists "", post. rewrite Ht in Hs. split; [simpl; by f_equal|].
      split; [|done]. pose proof (all_digits_take_digits s) as Hd.
      by rewrite Ht in Hd.
  - intros (pre & post & -> & ?)%IH. by exists (String c pre), post.
Qed.

(** [extract_payment_id] finds nothing, or returns the whole run of digits
    that follows a "#" of the text. *)
Theorem extract_payment_id_shape (text : string) :
  extract_payment_id text = (false, None)
  ∨ ∃ pre g post,
      extract_payment_id text = (true, Some g)
      ∧ text = pre ++ "#" ++ g ++ post
      ∧ isdigit g = true ∧ take_digits post = "".
Proof.
  unfold extract_payment_id. destruct (search_payment_id text) as [g|] eqn:Hs;
    [|by left].
  right. destruct (search_payment_id_shape _ _ Hs) as (pre & post & ?).
  by exists pre, g, post.
Qed.

End UtilsMoreFacts.

(** ** [to_camel_case] *)

Module CamelFacts.
Import PyStr PyText Camel PyStrFacts PyTextFacts.

#[local] Arguments String.append : simpl nomatch.

Lemma take_word_no_space s c :
  char_in c (take_word s) = true → is_space c = false.
Proof.
  induction s as [|a s IH]; simpl; [done|].
  destruct (is_space a) eqn:Ha; simpl; [done|].
  intros [->%Ascii.eqb_eq|H]%orb_prop; auto.
Qed.

Lemma words_from_words b s w :
  w ∈ words_from b s →
  w ≠ "" ∧ ∀ c, char_in c w = true → is_space c = false.
Proof.
  revert b. induction s as [|a s IH]; intros b; cbn [words_from].
  - by intros ?%elem_of_nil.
  - destruct (is_space a) eqn:Ha; [apply IH|].
    destruct b; [apply IH|].
    intros [->|Hin]%elem_of_cons; [|by apply (IH true)].
    split; [simpl; by rewrite Ha|apply take_word_no_space].
Qed.

Lemma words_from_nil s :
  words_from false s = [] ↔ ∀ c, char_in c s = true → is_space c = true.
Proof.
  induction s as [|a s IH]; cbn [words_from]; [done|].
  destruct (is_space a) eqn:Ha.
  - rewrite IH. simpl. split.
    + intros H c [->%Ascii.eqb_eq|Hc]%orb_prop; auto.
    + intros H c Hc. apply H. by rewrite Hc, orb_true_r.
  - split; [done|]. intros H. specialize (H a). simpl in H.
    rewrite Ascii.eqb_refl in H. simpl in H. specialize (H eq_refl).
    congruence.
Qed.

Lemma lower_chars w c :
  char_in c (lower w) = true → ∃ c', c = lower_char c' ∧ char_in c' w = true.
Proof.
  induction w as [|a w IH]; simpl; [done|].
  intros [->%Ascii.eqb_eq|(c' & -> & Hc)%IH]%orb_prop.
  - exists a. by rewrite Ascii.eqb_refl.
  - exists c'. by rewrite Hc, orb_true_r.
Qed.

Lemma lower_no_space w :
  (∀ c, char_in c w = true → is_space c = false) →
  ∀ c, char_in c (lower w) = true → is_space c = false.
Proof.
  intros H c (c' & -> & Hc)%lower_chars. apply lower_not_space. auto.
Qed.

Lemma capitalize_no_space w :
  (∀ c, char_in c w = true → is_space c = false) →
  ∀ c, char_in c (capitalize w) = true → is_space c = false.
Proof.
  destruct w as [|a w]; [done|]. intros H c. simpl.
  intros [->%Ascii.eqb_eq|Hc]%orb_prop.
  - apply upper_not_space, H. simpl. by rewrite Ascii.eqb_refl.
  - revert c Hc. apply lower_no_space. intros c Hc. apply H. simpl.
    by rewrite Hc, orb_true_r.
Qed.

Lemma concat_all_no_space (ws : list string) :
  Forall (λ w, ∀ c, char_in c w = true → is_space c = false) ws →
  ∀ c, char_in c (concat_all ws) = true → is_space c = false.
Proof.
  induction 1 as [|w ws Hw _ IH]; intros c; simpl; [done|].
  rewrite char_in_app. intros [Hc|Hc]%orb_prop; auto.
Qed.

(** The result of [to_camel_case] holds no whitespace, and it is empty
    exactly when the text holds nothing but whitespace. *)
Theorem to_camel_case_no_space (text : string) :
  (∀ c, char_in c (to_camel_case text) = true → is_space c = false)
  ∧ (to_camel_case text = ""
     ↔ ∀ c, char_in c text = true → is_space c = true).
Proof.
  unfold to_camel_case, split_ws.
  destruct (String.eqb_spec text "") as [->|Hne]; [done|].
  destruct (words_from false text) as [|w ws] eqn:Hw.
  { split; [done|]. split; [|done]. intros _. by apply words_from_nil. }
  assert (∀ v, v ∈ w :: ws →
               v ≠ "" ∧ ∀ c, char_in c v = true → is_space c = false) as Hall.
  { intros v Hv. apply (words_from_words false text). by rewrite Hw. }
  split.
  - intros c. rewrite char_in_app. intros [Hc|Hc]%orb_prop.
    + revert c Hc. apply lower_no_space.
      apply (Hall w), list_elem_of_here.
    + revert c Hc. apply concat_all_no_space, Forall_fmap, Forall_forall.
      intros v Hv. unfold compose. apply capitalize_no_space.
      apply (Hall v). by apply list_elem_of_further.
  - split.
    + intros Hempty. destruct (Hall w) as [Hw0 _]; [apply list_elem_of_here|].
      destruct w; [done|]. discriminate Hempty.
    + intros H%words_from_nil. congruence.
Qed.

End CamelFacts.

(** ** Resolution passes, sheet names and table rows *)

Module TablesFacts.
Import PyStr PyText Utils Float64 Costco Tables.
Import PyStrFacts PyTextFacts ResolverFacts UtilsMoreFacts CostcoFacts.

#[local] Arguments String.append : simpl nomatch.

(** *** The two passes *)

Lemma second_try_short (D : gmap string string) (r : TransactionRow) :
  (String.length (invoiceNumber r) < 11)%nat →
  second_try D (first_try D r) = first_try D r.
Proof.
  intros Hlen. unfold second_try, first_try. cbn [storeName row].
  destruct (String.eqb (dict_get D _ "Unknown") "Unknown"); [|done].
  by destruct (Nat.leb_spec 11 (String.length (invoiceNumber r))); [lia|].
Qed.

Lemma resolve_rows_short_invoices_aux (D : gmap string string)
    (file_rows : list TransactionRow) :
  Forall (λ r, (String.length (invoiceNumber r) < 11)%nat) file_rows →
  resolve_rows D file_rows = first_try D <$> file_rows.
Proof.
  unfold resolve_rows. induction 1 as [|r l Hr _ IH]; [done|].
  rewrite !fmap_cons, IH. f_equal. by apply second_try_short.
Qed.

(** The second try cannot change a row whose invoice number has fewer than
    eleven characters: it cuts the same six characters again. *)
Theorem resolve_rows_short_invoices (D : gmap string string)
    (file_rows : list TransactionRow) :
  Forall (λ r, (String.length (invoiceNumber r) < 11)%nat) file_rows →
  resolve_rows D file_rows = first_try D <$> file_rows.
Proof. apply resolve_rows_short_invoices_aux. Qed.

Lemma resolve_rows_short_invoices_witness :
  resolve_rows (<["0042" := "Downtown"]> ∅)
    [ {| invoiceNumber := "9942ABCDEF"; orderNumber := ""; description := "";
         date := ""; amount := zero |} ]
  = first_try (<["0042" := "Downtown"]> ∅)
      <$> [ {| invoiceNumber := "9942ABCDEF"; orderNumber := "";
               description := ""; date := ""; amount := zero |} ].
Proof.
  apply resolve_rows_short_invoices. repeat constructor.
Defined.

Lemma first_try_consistent (D : gmap string string) (t : TransactionRow) :
  let r := first_try D t in
  storeName r = dict_get D (storeKey r) "Unknown"
  ∧ storeKey r = extract_key (invoiceNumber (row r)) D (-6)
  ∧ row r = t.
Proof. done. Qed.

Lemma second_try_consistent (D : gmap string string) (r : ResolvedRow) :
  storeName r = dict_get D (storeKey r) "Unknown" →
  storeKey r = extract_key (invoiceNumber (row r)) D (-6) →
  let r' := second_try D r in
  storeName r' = dict_get D (storeKey r') "Unknown"
  ∧ (storeKey r' = extract_key (invoiceNumber (row r')) D (-6)
     ∨ storeKey r' = extract_key (invoiceNumber (row r')) D (-7))
  ∧ row r' = row r.
Proof.
  intros Hn Hk. unfold second_try.
  destruct (String.eqb (storeName r) "Unknown"); cbn [storeName storeKey row].
  - split; [done|]. split; [|done].
    destruct (11 <=? String.length (invoiceNumber (row r)))%nat; auto.
  - auto.
Qed.

(** After the two passes every row still carries the parsed row it came
    from, in the same order; its key is what the resolver returns for its
    invoice number with six or seven characters cut, hence "0000" or a key
    of the directory; and its name is the directory's entry for that key
    ("Unknown" where there is none). *)
Theorem resolve_rows_consistent (D : gmap string string)
    (file_rows : list TransactionRow) (r : ResolvedRow) :
  r ∈ resolve_rows D file_rows →
  row <$> resolve_rows D file_rows = file_rows
  ∧ row r ∈ file_rows
  ∧ storeName r = dict_get D (storeKey r) "Unknown"
  ∧ (storeKey r = extract_key (invoiceNumber (row r)) D (-6)
     ∨ storeKey r = extract_key (invoiceNumber (row r)) D (-7))
  ∧ (storeKey r = "0000" ∨ is_Some (D !! storeKey r)).
Proof.
  intros Hin. split; [apply resolve_rows_rows|].
  unfold resolve_rows in Hin.
  apply list_elem_of_fmap in Hin as (r1 & -> & Hin).
  apply list_elem_of_fmap in Hin as (t & -> & Hin).
  destruct (first_try_consistent D t) as (Hn & Hk & Hr).
  destruct (second_try_consistent D (first_try D t) Hn Hk) as (Hn' & Hk' & Hr').
  cbv zeta in *. rewrite Hr' in *. split; [by rewrite Hr|].
  split; [done|]. split; [done|].
  destruct Hk' as [-> | ->]; apply extract_key_sentinel_or_key.
Qed.

Lemma resolve_rows_consistent_witness :
  let D : gmap string string := <["0042" := "Downtown"]> ∅ in
  let t := {| invoiceNumber := "99420ABCDEFG"; orderNumber := "";
              description := ""; date := ""; amount := zero |} in
  let r := {| row := t; storeKey := "0000"; storeName := "Unknown" |} in
  row <$> resolve_rows D [t] = [t]
  ∧ row r ∈ [t]
  ∧ storeName r = dict_get D (storeKey r) "Unknown"
  ∧ (storeKey r = extract_key (invoiceNumber (row r)) D (-6)
     ∨ storeKey r = extract_key (invoiceNumber (row r)) D (-7))
  ∧ (storeKey r = "0000" ∨ is_Some (D !! storeKey r)).
Proof.
  cbv zeta. apply resolve_rows_consistent.
  vm_compute. apply list_elem_of_here.
Defined.

(** *** Sheet names *)

Lemma length_take_le k s : (String.length (take k s) ≤ k)%nat.
Proof.
  revert s. induction k as [|k IH]; intros [|c s]; simpl; try lia.
  specialize (IH s). lia.
Qed.

Lemma char_in_take c k s :
  char_in c (take k s) = true → char_in c s = true.
Proof.
  revert s. induction k as [|k IH]; intros [|a s]; simpl; try done.
  intros [->|H]%orb_prop; [done|]. by rewrite (IH s H), orb_true_r.
Qed.

Lemma take_idem k s : take k (take k s) = take k s.
Proof.
  revert s. induction k as [|k IH]; intros [|c s]; simpl; try done.
  by rewrite IH.
Qed.

Lemma remove_chars_gone chars s c :
  char_in c chars = true → char_in c (remove_chars chars s) = false.
Proof.
  intros Hc. induction s as [|a s IH]; simpl; [done|].
  destruct (char_in a chars) eqn:Ha; [done|]. simpl. rewrite IH.
  destruct (Ascii.eqb_spec c a) as [->|]; [congruence|done].
Qed.

Lemma remove_chars_clean chars s :
  (∀ c, char_in c chars = true → char_in c s = false) →
  remove_chars chars s = s.
Proof.
  induction s as [|a s IH]; intros H; simpl; [done|].
  destruct (char_in a chars) eqn:Ha.
  - specialize (H a Ha). simpl in H. by rewrite Ascii.eqb_refl in H.
  - rewrite IH; [done|]. intros c Hc. specialize (H c Hc). simpl in H.
    by apply orb_false_elim in H as [_ ?].
Qed.

(** The name given to a sheet has at most 31 characters and none of
    [\ * ? : / [ ]]; a name that is already so is unchanged. *)
Theorem safe_name_safe (filename : string) :
  (String.length (safe_name filename) ≤ 31)%nat
  ∧ (∀ c, char_in c "\*?:/[]" = true → char_in c (safe_name filename) = false)
  ∧ safe_name (safe_name filename) = safe_name filename.
Proof.
  assert (∀ c, char_in c "\*?:/[]" = true →
               char_in c (safe_name filename) = false) as Hclean.
  { intros c Hc. unfold safe_name.
    destruct (char_in c (take 31 _)) eqn:H; [|done].
    apply char_in_take in H. by rewrite remove_chars_gone in H. }
  split; [apply length_take_le|]. split; [exact Hclean|].
  unfold safe_name at 1. rewrite (remove_chars_clean _ _ Hclean).
  apply take_idem.
Qed.

(** *** The footer of a sheet *)

Lemma take_word_until w c rest :
  (∀ a, char_in a w = true → is_space a = false) → is_space c = true →
  take_word (w ++ String c rest) = w.
Proof.
  intros Hw Hc. induction w as [|a w IH]; simpl.
  - by rewrite Hc.
  - rewrite (Hw a) by (simpl; by rewrite Ascii.eqb_refl). rewrite IH; [done|].
    intros b Hb. apply Hw. simpl. by rewrite Hb, orb_true_r.
Qed.

Lemma take_word_all w :
  (∀ a, char_in a w = true → is_space a = false) → take_word w = w.
Proof.
  intros Hw. induction w as [|a w IH]; simpl; [done|].
  rewrite (Hw a) by (simpl; by rewrite Ascii.eqb_refl). rewrite IH; [done|].
  intros b Hb. apply Hw. simpl. by rewrite Hb, orb_true_r.
Qed.

Lemma words_from_rest w c rest :
  (∀ a, char_in a w = true → is_space a = false) → is_space c = true →
  words_from true (w ++ String c rest) = words_from false rest.
Proof.
  intros Hw Hc. induction w as [|a w IH]; simpl.
  - by rewrite Hc.
  - rewrite (Hw a) by (simpl; by rewrite Ascii.eqb_refl). apply IH.
    intros b Hb. apply Hw. simpl. by rewrite Hb, orb_true_r.
Qed.

Lemma words_from_end w :
  (∀ a, char_in a w = true → is_space a = false) → words_from true w = [].
Proof.
  intros Hw. induction w as [|a w IH]; simpl; [done|].
  rewrite (Hw a) by (simpl; by rewrite Ascii.eqb_refl). apply IH.
  intros b Hb. apply Hw. simpl. by rewrite Hb, orb_true_r.
Qed.

Lemma split_ws_word w :
  w ≠ "" → (∀ a, char_in a w = true → is_space a = false) →
  split_ws w = [w].
Proof.
  intros Hne Hw. unfold split_ws. destruct w as [|a w]; [done|].
  cbn [words_from]. rewrite (Hw a) by (simpl; by rewrite Ascii.eqb_refl).
  rewrite (take_word_all _ Hw). f_equal. apply words_from_end.
  intros b Hb. apply Hw. simpl. by rewrite Hb, orb_true_r.
Qed.

Lemma split_ws_first w c rest :
  w ≠ "" → (∀ a, char_in a w = true → is_space a = false) →
  is_space c = true →
  split_ws (w ++ String c rest) = w :: split_ws rest.
Proof.
  intros Hne Hw Hc. unfold split_ws. destruct w as [|a w]; [done|].
  change (String a w ++ String c rest) with (String a (w ++ String c rest)).
  cbn [words_from]. rewrite (Hw a) by (simpl; by rewrite Ascii.eqb_refl).
  change (String a (w ++ String c rest)) with (String a w ++ String c rest).
  rewrite (take_word_until _ _ _ Hw Hc). f_equal. apply words_from_rest; [|done].
  intros b Hb. apply Hw. simpl. by rewrite Hb, orb_true_r.
Qed.

Lemma digits_no_space s c :
  all_digits s = true → char_in c s = true → is_space c = false.
Proof.
  intros Hs Hc. apply digit_not_space. by apply (all_digits_char c s).
Qed.

Lemma mm_dd_word text res :
  extract_mm_dd text = (true, Some res) →
  res ≠ "" ∧ ∀ c, char_in c res = true → is_space c = false.
Proof.
  unfold extract_mm_dd. destruct (search_mm_dd text) as [g|] eqn:Hs; [|done].
  intros [= <-].
  destruct (search_mm_dd_shape _ _ Hs)
    as (pre & m & d & post & -> & _ & Hm & Hd & _).
  split; [by destruct m|]. intros c. rewrite !char_in_app.
  intros [Hc|[Hc|Hc]%orb_prop]%orb_prop.
  - apply (digits_no_space m); [by apply isdigit_all_digits|done].
  - simpl in Hc. rewrite orb_false_r in Hc.
    by apply Ascii.eqb_eq in Hc as ->.
  - apply (digits_no_space d); [by apply isdigit_all_digits|done].
Qed.

Lemma payment_id_word text res :
  extract_payment_id text = (true, Some res) →
  res ≠ "" ∧ ∀ c, char_in c res = true → is_space c = false.
Proof.
  unfold extract_payment_id.
  destruct (search_payment_id text) as [g|] eqn:Hs; [|done].
  intros [= <-].
  destruct (search_payment_id_shape _ _ Hs) as (pre & post & _ & Hg & _).
  split; [by destruct g|]. intros c.
  apply digits_no_space. by apply isdigit_all_digits.
Qed.

Lemma scan_header_words lines acc :
  Forall (λ x, x ≠ "" ∧ ∀ c, char_in c x = true → is_space c = false) acc →
  Forall (λ x, x ≠ "" ∧ ∀ c, char_in c x = true → is_space c = false)
         (scan_header lines acc).
Proof.
  revert acc. induction lines as [|line lines IH]; intros acc Hacc;
    cbn [scan_header]; [done|].
  destruct (startswith "Date" line).
  - destruct (extract_mm_dd line) as [[] [res|]] eqn:He; try by apply IH.
    apply IH, Forall_app. split; [done|].
    apply Forall_singleton. by apply (mm_dd_word line).
  - destruct (startswith "Payment" line); [|by apply IH].
    destruct (extract_payment_id line) as [[] [res|]] eqn:He; try by apply IH.
    apply Forall_app. split; [done|].
    apply Forall_singleton. by apply (payment_id_word line).
Qed.

(** A section named after the header splits into its two parts again: the
    footer reads the first value as the date and "#" with the second value
    as the check number. *)
Theorem date_and_check_of_header (first_page_text file_filename : string)
    (d0 d1 : string) (more : list string) :
  scan_header (split newline first_page_text) [] = d0 :: d1 :: more →
  date_and_check (section_name first_page_text file_filename)
  = Some (d0, "#" ++ d1).
Proof.
  intros Hs. unfold section_name. rewrite Hs. cbn [name_of].
  pose proof (scan_header_words (split newline first_page_text) []
                (Forall_nil_2 _)) as Hw.
  rewrite Hs in Hw. apply Forall_cons in Hw as [[Hne0 Hsp0] Hw].
  apply Forall_cons in Hw as [[Hne1 Hsp1] _].
  unfold date_and_check.
  change (d0 ++ " #" ++ d1) with (d0 ++ String " "%char (String "#"%char d1)).
  rewrite split_ws_first by done.
  rewrite split_ws_word; [done|done|].
  intros c. simpl. intros [->%Ascii.eqb_eq|Hc]%orb_prop; [done|auto].
Qed.

Lemma date_and_check_of_header_witness :
  date_and_check (section_name Pages.date_then_payment "report.pdf")
  = Some ("01/04", "#" ++ "123456").
Proof.
  apply (date_and_check_of_header _ _ "01/04" "123456" []).
  vm_compute. reflexivity.
Defined.

(** A section that falls back to the uploaded name stops the footer when
    that name holds no whitespace, as "report.pdf" does: the unpacking of
    [filename.split()] does not find two values. *)
Theorem date_and_check_of_plain_filename (first_page_text file_filename : string) :
  (length (scan_header (split newline first_page_text) []) < 2)%nat →
  (∀ c, char_in c file_filename = true → is_space c = false) →
  section_name first_page_text file_filename = file_filename
  ∧ date_and_check (section_name first_page_text file_filename) = None.
Proof.
  intros Hl Hsp. unfold section_name. rewrite (name_of_short _ _ Hl).
  split; [done|]. unfold date_and_check.
  destruct (decide (file_filename = "")) as [->|Hne]; [done|].
  by rewrite split_ws_word.
Qed.

Lemma date_and_check_of_plain_filename_witness :
  section_name Pages.no_header "report.pdf" = "report.pdf"
  ∧ date_and_check (section_name Pages.no_header "report.pdf") = None.
Proof.
  apply date_and_check_of_plain_filename; [vm_compute; lia|].
  intros c Hc. destruct (is_space c) eqn:Hs; [|done].
  destruct c as [[] [] [] [] [] [] [] []]; vm_compute in Hs, Hc; congruence.
Defined.

(** *** Table rows *)

Lemma omap_length_le {A B} (f : A → option B) (l : list A) :
  (length (omap f l) ≤ length l)%nat.
Proof.
  induction l as [|x l IH]; simpl; [done|].
  change (list_omap A B f l) with (omap f l). destruct (f x); simpl; lia.
Qed.

Section RowFacts.
Variable float_of_text : string → option float64.

Lemma parse_row_kept (r : list (option string)) (t : TransactionRow) :
  parse_row float_of_text r = Some t →
  (7 ≤ length r)%nat
  ∧ (∃ s, cell_at r 0 = Some s ∧ s ≠ "" ∧ invoiceNumber t = strip s)
  ∧ float_of_text (strip (remove_chars "," (cell_or (cell_at r 6) "0")))
    = Some (amount t)
  ∧ strip (invoiceNumber t) = invoiceNumber t
  ∧ strip (orderNumber t) = orderNumber t
  ∧ strip (description t) = description t
  ∧ strip (date t) = date t.
Proof.
  unfold parse_row. destruct (Nat.ltb_spec (length r) 7); [done|].
  destruct (String.eqb _ "" || String.eqb (cell_or (cell_at r 0) "") "")
    eqn:Hguard; [done|].
  apply orb_false_elim in Hguard as [_ Hinv].
  destruct (float_of_text _) as [a|] eqn:Hf; [|done].
  intros [= <-]. cbn [invoiceNumber orderNumber description date amount].
  rewrite !strip_idem. split; [done|]. split; [|done].
  unfold cell_or in *. destruct (cell_at r 0) as [s|]; [|done].
  destruct (String.eqb_spec s "") as [Hs|Hs]; [by subst s|]. by exists s.
Qed.

(** Every row taken from a table comes from a row under the header that
    has at least seven cells and a non-empty first cell; its amount is what
    the seventh cell reads as once commas and surrounding blanks are
    removed, an empty cell reading as "0"; its text fields carry no
    surrounding whitespace.  A table gives at most one row for each row
    under its header. *)
Theorem parse_table_rows (table : list (list (option string)))
    (t : TransactionRow) :
  t ∈ parse_table float_of_text table →
  (length (parse_table float_of_text table) ≤ length table - 1)%nat
  ∧ ∃ r, r ∈ tail table
         ∧ (7 ≤ length r)%nat
         ∧ (∃ s, cell_at r 0 = Some s ∧ s ≠ "" ∧ invoiceNumber t = strip s)
         ∧ float_of_text (strip (remove_chars "," (cell_or (cell_at r 6) "0")))
           = Some (amount t)
         ∧ strip (invoiceNumber t) = invoiceNumber t
         ∧ strip (orderNumber t) = orderNumber t
         ∧ strip (description t) = description t
         ∧ strip (date t) = date t.
Proof.
  unfold parse_table. destruct (length table <? 2)%nat.
  { by intros ?%elem_of_nil. }
  intros (r & Hin & Hr)%list_elem_of_omap. split.
  - etrans; [apply omap_length_le|]. destruct table; simpl; lia.
  - exists r. split; [done|]. by apply parse_row_kept.
Qed.

(** A first cell that holds only blanks passes the test for an empty
    invoice: a row of at least seven cells whose amount cell reads as a
    float is kept, with an empty invoice number, and both passes resolve it
    to "0000". *)
Theorem blank_invoice_resolves_to_sentinel (D : gmap string string)
    (r : list (option string)) (s : string) (a : float64) :
  (7 ≤ length r)%nat →
  cell_at r 0 = Some s → s ≠ "" → strip s = "" →
  strip (remove_chars "," (cell_or (cell_at r 6) "0")) ≠ "" →
  float_of_text (strip (remove_chars "," (cell_or (cell_at r 6) "0")))
  = Some a →
  ∃ t, parse_row float_of_text r = Some t
       ∧ invoiceNumber t = "" ∧ amount t = a
       ∧ resolve_rows D [t]
         = [ {| row := t; storeKey := "0000";
                storeName := dict_get D "0000" "Unknown" |} ].
Proof.
  intros Hlen Hc Hs Hblank Hamount Hf. unfold parse_row.
  destruct (Nat.ltb_spec (length r) 7) as [|_]; [lia|].
  assert (cell_or (Some s) "" = s) as Hcell.
  { unfold cell_or. by destruct (String.eqb_spec s ""). }
  rewrite Hf, Hc, Hcell.
  rewrite (proj2 (String.eqb_neq _ _) Hamount), (proj2 (String.eqb_neq _ _) Hs).
  cbn [orb]. eexists. split; [done|].
  cbn [invoiceNumber amount]. rewrite Hblank. split; [done|]. split; [done|].
  rewrite resolve_rows_short_invoices_aux.
  - done.
  - apply Forall_singleton. simpl. lia.
Qed.

End RowFacts.

Lemma parse_table_rows_witness :
  let float_of_text :=
    λ s, if String.eqb s "1250" then Some (of_Z 1250) else None in
  let body := [Some " 4200ABCDEF"; None; None; None; None; None; Some "1,250 "] in
  let t := {| invoiceNumber := "4200ABCDEF"; orderNumber := "";
              description := ""; date := ""; amount := of_Z 1250 |} in
  (length (parse_table float_of_text [[Some "Invoice"]; body]) ≤ 2 - 1)%nat
  ∧ ∃ r, r ∈ [body]
         ∧ (7 ≤ length r)%nat
         ∧ (∃ s, cell_at r 0 = Some s ∧ s ≠ "" ∧ invoiceNumber t = strip s)
         ∧ float_of_text (strip (remove_chars "," (cell_or (cell_at r 6) "0")))
           = Some (amount t)
         ∧ strip (invoiceNumber t) = invoiceNumber t
         ∧ strip (orderNumber t) = orderNumber t
         ∧ strip (description t) = description t
         ∧ strip (date t) = date t.
Proof.
  cbv zeta.
  apply (parse_table_rows
           (λ s, if String.eqb s "1250" then Some (of_Z 1250) else None)
           [[Some "Invoice"];
            [Some " 4200ABCDEF"; None; None; None; None; None; Some "1,250 "]]).
  vm_compute. apply list_elem_of_here.
Defined.

Lemma blank_invoice_resolves_to_sentinel_witness :
  let float_of_text := λ s, if String.eqb s "0" then Some zero else None in
  let D : gmap string string := <["0042" := "Downtown"]> ∅ in
  ∃ t, parse_row float_of_text
         [Some "  "; None; None; None; None; None; None] = Some t
       ∧ invoiceNumber t = "" ∧ amount t = zero
       ∧ resolve_rows D [t]
         = [ {| row := t; storeKey := "0000";
                storeName := dict_get D "0000" "Unknown" |} ].
Proof.
  cbv zeta.
  apply (blank_invoice_resolves_to_sentinel
           (λ s, if String.eqb s "0" then Some zero else None)
           (<["0042" := "Downtown"]> ∅)
           [Some "  "; None; None; None; None; None; None] "  " zero);
    [simpl; lia | reflexivity | discriminate | reflexivity
    | vm_compute; discriminate | reflexivity].
Defined.

(** *** The summary over all files *)

Lemma name_amount_concat (D : gmap string string)
    (files : list (list TransactionRow)) :
  concat ((λ file_rows, name_amount (resolve_rows D file_rows)) <$> files)
  = name_amount (resolve_rows D (concat files)).
Proof.
  induction files as [|f files IH]; [done|].
  rewrite fmap_cons. cbn [concat]. rewrite IH.
  unfold name_amount, resolve_rows. by rewrite !fmap_app.
Qed.

Lemma concat_nonempty {A} (files : list (list A)) :
  concat (List.filter (λ file_rows, negb (Nat.eqb (length file_rows) 0)) files)
  = concat files.
Proof.
  induction files as [|f files IH]; [done|]. cbn [List.filter].
  destruct f as [|r f]; cbn [length Nat.eqb negb concat]; [done|].
  by rewrite IH.
Qed.

Lemma no_nonempty {A} (files : list (list A)) :
  List.filter (λ file_rows, negb (Nat.eqb (length file_rows) 0)) files = []
  ↔ Forall (λ file_rows, file_rows = []) files.
Proof.
  induction files as [|f files IH]; [done|]. cbn [List.filter].
  rewrite Forall_cons. destruct f as [|r f]; cbn [length Nat.eqb negb].
  - rewrite IH. naive_solver.
  - naive_solver.
Qed.

Lemma combined_summary_cases (group_sum : list float64 → float64)
    (D : gmap string string) (files : list (list TransactionRow)) :
  combined_summary group_sum D files
  = match List.filter (λ file_rows, negb (Nat.eqb (length file_rows) 0)) files
    with
    | [] => None
    | _ => Some (store_summary group_sum D (concat files))
    end.
Proof.
  unfold combined_summary, store_summary.
  rewrite <- (concat_nonempty files), <- name_amount_concat.
  by destruct (List.filter _ files).
Qed.

(** There is no summary over all files (the 400 response) exactly when no
    file has a parsed row.  Otherwise the summary is the per-store summary
    of the parsed rows of all files taken together, in the order of the
    files: the groups of its names hold the amount of every parsed row of
    every file once. *)
Theorem combined_summary_all_rows (group_sum : list float64 → float64)
    (D : gmap string string) (files : list (list TransactionRow)) :
  (combined_summary group_sum D files = None
   ↔ Forall (λ file_rows, file_rows = []) files)
  ∧ (∀ summary,
       combined_summary group_sum D files = Some summary
       ↔ ¬ Forall (λ file_rows, file_rows = []) files
         ∧ summary = store_summary group_sum D (concat files))
  ∧ concat ((λ name,
               group_of name (name_amount (resolve_rows D (concat files))))
            <$> (store_summary group_sum D (concat files)).*1)
    ≡ₚ amount <$> concat files.
Proof.
  split_and!.
  - rewrite combined_summary_cases, <- no_nonempty.
    by destruct (List.filter _ files).
  - intros summary. rewrite combined_summary_cases, <- no_nonempty.
    destruct (List.filter _ files); naive_solver.
  - rewrite <- (name_amount_amounts D (concat files)).
    apply groupby_sum_partition.
Qed.

End TablesFacts.

(** ** The line scan of [app/main.py] *)

Module LineScanFacts.
Import PyStr PyText Float64 LineScan PyStrFacts PyTextFacts CamelFacts.

#[local] Arguments String.append : simpl nomatch.

Lemma slash_day_year_slash s : slash_day_year s = true → char_in "/" s = true.
Proof.
  destruct s as [|c s]; simpl; [done|].
  intros [->%Ascii.eqb_eq _]%andb_prop. done.
Qed.

Lemma match_date_slash p : match_date p = true → char_in "/" p = true.
Proof.
  destruct p as [|a s1]; simpl; [done|].
  intros [_ [H|H]%orb_prop]%andb_prop.
  - destruct s1 as [|b s2]; [done|].
    apply andb_prop in H as [_ H%slash_day_year_slash].
    simpl. by rewrite H, !orb_true_r.
  - apply slash_day_year_slash in H. by rewrite H, orb_true_r.
Qed.

Lemma take_word_chars s c :
  char_in c (take_word s) = true → char_in c s = true.
Proof.
  induction s as [|a s IH]; simpl; [done|].
  destruct (is_space a); simpl; [done|].
  intros [->|H]%orb_prop; [done|]. by rewrite IH, orb_true_r.
Qed.

Lemma words_from_chars b s w c :
  w ∈ words_from b s → char_in c w = true → char_in c s = true.
Proof.
  revert b. induction s as [|a s IH]; intros b; cbn [words_from].
  - by intros ?%elem_of_nil.
  - assert (∀ b', w ∈ words_from b' s → char_in c w = true →
                  char_in c (String a s) = true) as Hrec.
    { intros b' Hw Hc. simpl. by rewrite (IH b' Hw Hc), orb_true_r. }
    destruct (is_space a); [apply Hrec|].
    destruct b; [apply Hrec|].
    intros [->|Hin]%elem_of_cons; [apply take_word_chars|by apply (Hrec true)].
Qed.

Section LineFacts.
Variable float_of_text : string → option float64.

(** A line gives a row only when it holds a "/" (one of its words starts
    like a date); the invoice number is then the first word of the line,
    so it is not empty and holds no whitespace, and the amount is what the
    last word reads as once its commas are removed. *)
Theorem parse_line_row (line invoice : string) (amount : float64) :
  parse_line float_of_text line = Some (invoice, amount) →
  char_in "/" line = true
  ∧ (∃ p, p ∈ split_ws line ∧ match_date p = true)
  ∧ head (split_ws line) = Some invoice
  ∧ invoice ≠ ""
  ∧ (∀ c, char_in c invoice = true → is_space c = false)
  ∧ float_of_text (remove_chars "," (List.last (split_ws line) ""))
    = Some amount.
Proof.
  unfold parse_line. destruct (existsb match_date (split_ws line)) eqn:He;
    [|done].
  apply existsb_exists in He as (p & Hp%list_elem_of_In & Hm).
  destruct (split_ws line) as [|w ws] eqn:Hw; [done|].
  intros (a & Ha & [= -> ->])%fmap_Some.
  assert (∀ v, v ∈ w :: ws → v ∈ split_ws line) as Hin by (by rewrite Hw).
  split.
  { apply (words_from_chars false line p); [by apply Hin|].
    by apply match_date_slash. }
  split; [by exists p|]. split; [done|].
  destruct (words_from_words false line w) as [Hne Hsp];
    [apply Hin, list_elem_of_here|].
  done.
Qed.

End LineFacts.

Lemma parse_line_row_witness :
  let float_of_text := λ s, if String.eqb s "1250.00" then Some (of_Z 1250) else None in
  let line := "4200ABCDEF 01/04/2026 paid 1,250.00" in
  char_in "/" line = true
  ∧ (∃ p, p ∈ split_ws line ∧ match_date p = true)
  ∧ head (split_ws line) = Some "4200ABCDEF"
  ∧ "4200ABCDEF" ≠ ""
  ∧ (∀ c, char_in c "4200ABCDEF" = true → is_space c = false)
  ∧ float_of_text (remove_chars "," (List.last (split_ws line) "")) = Some (of_Z 1250).
Proof.
  cbv zeta.
  apply (parse_line_row
           (λ s, if String.eqb s "1250.00" then Some (of_Z 1250) else None)).
  vm_compute. reflexivity.
Defined.

End LineScanFacts.

(** ** More on the sales parser *)

Module SalesMoreFacts.
Import PyStr Sales Sheets Validation SalesFacts.

(** *** Rows and labels *)

Lemma loc_labelled (sheet : list row) (k : nat) (label : Z) (r : row) :
  loc (List.filter (λ ir, negb (all_nan ir.2))
         (imap (λ i r, (Z.of_nat (k + i), r)) sheet)) label = Some r
  ↔ ∃ i, label = Z.of_nat (k + i) ∧ sheet !! i = Some r ∧ all_nan r = false.
Proof.
  revert k. induction sheet as [|r0 sheet IH]; intros k.
  - simpl. split; [done|]. by intros (i & _ & ? & _).
  - rewrite imap_cons. cbn [List.filter snd].
    rewrite (imap_ext _ (λ i r, (Z.of_nat (S k + i), r)))
      by (intros; simpl; f_equal; lia).
    assert ((∃ i, label = Z.of_nat (k + i) ∧ (r0 :: sheet) !! i = Some r
                  ∧ all_nan r = false)
            ↔ (label = Z.of_nat k ∧ r0 = r ∧ all_nan r = false)
              ∨ ∃ i, label = Z.of_nat (S k + i) ∧ sheet !! i = Some r
                     ∧ all_nan r = false) as ->.
    { split.
      - intros ([|i] & -> & Hi & Hr); simpl in Hi.
        + left. injection Hi as ->. split; [f_equal; lia|done].
        + right. exists i. split; [f_equal; lia|done].
      - intros [(-> & -> & Hr)|(i & -> & Hi & Hr)].
        + exists 0%nat. split; [f_equal; lia|done].
        + exists (S i). split; [f_equal; lia|done]. }
    rewrite <- IH. destruct (all_nan r0) eqn:Hn; cbn [negb].
    + split; [by right|]. intros [(_ & -> & Hr)|H]; [congruence|done].
    + cbn [loc]. replace (k + 0)%nat with k by lia.
      destruct (Z.eqb_spec (Z.of_nat k) label) as [<-|Hne].
      * split.
        -- intros [= ->]. by left.
        -- intros [(_ & -> & _)|H]; [done|].
           apply IH in H as (i & Hi & _). lia.
      * split; [by right|]. intros [(-> & _)|H]; [done|done].
Qed.

(** [dropna] keeps the rows that are not entirely empty under the label
    of their position in the sheet: looking a label up finds the row of
    that position, and finds nothing for the position of an empty row or a
    label outside the sheet. *)
Theorem loc_dropna (sheet : list row) (label : Z) (r : row) :
  loc (dropna sheet) label = Some r
  ↔ ∃ i, label = Z.of_nat i ∧ sheet !! i = Some r ∧ all_nan r = false.
Proof. apply (loc_labelled sheet 0). Qed.

(** *** Frames without blocks, and blocks that run out of rows *)

Section ScanFacts.
Variable float_of_text : string → option pyfloat.

Lemma scan_no_salesperson (df : frame) (rows : list (Z * row))
    (sales : odict (odict pyfloat)) (j : Z) :
  (∀ i r c, (i, r) ∈ rows → Customer r = CStr c →
            startswith "salesperson" (lower c) = false) →
  scan float_of_text df rows sales j = Ok (sales, j).
Proof.
  induction rows as [|[i r] rows IH]; intros H; cbn [scan]; [done|].
  assert (scan float_of_text df rows sales j = Ok (sales, j)) as Hrest.
  { apply IH. intros i' r' c Hin. apply (H i' r' c).
    by apply list_elem_of_further. }
  destruct (i <=? j)%Z; [done|].
  destruct (Customer r) as [|c|] eqn:Hc; try done.
  by rewrite (H i r c (list_elem_of_here _ _) Hc).
Qed.

(** A frame in which no Customer cell starts with "salesperson" parses to
    no block at all. *)
Theorem parse_blocks_no_salesperson (df : frame) :
  (∀ i r c, (i, r) ∈ df → Customer r = CStr c →
            startswith "salesperson" (lower c) = false) →
  parse_blocks float_of_text df = Ok [].
Proof.
  intros H. unfold parse_blocks. by rewrite scan_no_salesperson.
Qed.

(** A block that starts on a row whose next label is missing from the
    frame (the row after it was entirely empty and dropped, or the frame
    ends there) raises [KeyError]. *)
Theorem block_without_next_row_raises (df before after : frame)
    (i : Z) (r : row) (sales : odict (odict pyfloat)) (j : Z)
    (customer w0 salesperson : string) (ws : list string) :
  df = (before ++ (i, r) :: after)%list →
  scan float_of_text df before [] (-1)%Z = Ok (sales, j) →
  (j < i)%Z →
  Customer r = CStr customer →
  startswith "salesperson" (lower customer) = true →
  split " " customer = w0 :: salesperson :: ws →
  loc df (i + 1)%Z = None →
  parse_blocks float_of_text df = Raise KeyError.
Proof.
  intros Hdf Hscan Hj Hc Hs Hsp Hloc. unfold parse_blocks.
  rewrite Hdf at 2. rewrite scan_app, Hscan.
  cbn [mbind result_bind fst snd scan].
  destruct (Z.leb_spec i j); [lia|]. rewrite Hc, Hs, Hsp.
  unfold block, metric_row. by rewrite Hloc.
Qed.

End ScanFacts.

Lemma parse_blocks_no_salesperson_witness :
  parse_blocks no_text_floats
    (dropna [line "Customer A" (CNum (num 10)); line "Total" (CNum (num 10))])
  = Ok [].
Proof.
  apply parse_blocks_no_salesperson. intros i r c Hin Hc.
  vm_compute in Hin.
  apply elem_of_cons in Hin as [[= -> ->]|Hin].
  { injection Hc as <-. reflexivity. }
  apply list_elem_of_singleton in Hin as [= -> ->].
  injection Hc as <-. reflexivity.
Defined.

Lemma block_without_next_row_raises_witness :
  parse_blocks no_text_floats
    (dropna [ line "Salesperson John" CNaN;
              {| Customer := CNaN; Cost := CNaN; n_a := CNaN;
                 cost_of_goods := CNaN; profit_percentage := CNaN |};
              line "Period To Date:" (CNum (num 100));
              line "Year To Date:" (CNum (num 200));
              line "Prior Year:" (CNum (num 50)) ])
  = Raise KeyError.
Proof.
  eapply (block_without_next_row_raises no_text_floats _ [] _ 0%Z
            (line "Salesperson John" CNaN) [] (-1)%Z
            "Salesperson John" "Salesperson" "John" []);
    [reflexivity | reflexivity | lia | reflexivity | reflexivity
    | reflexivity | reflexivity].
Defined.

(** *** Accumulation *)

Lemma od_get_set {V} (d : odict V) k v k' :
  od_get (od_set d k v) k' = if String.eqb k' k then Some v else od_get d k'.
Proof.
  induction d as [|[k0 v0] d IH]; simpl.
  - done.
  - destruct (String.eqb_spec k k0) as [->|Hne]; simpl.
    + by destruct (String.eqb k' k0).
    + rewrite IH. destruct (String.eqb_spec k' k0) as [->|_]; [|done].
      by destruct (String.eqb_spec k0 k) as [->|_].
Qed.

Section MetricFacts.
Variable float_of_text : string → option pyfloat.

(** A metric row that is read adds its Cost to what the salesperson
    already holds under the metric key, and touches nothing else: a
    salesperson met in several blocks accumulates. *)
Theorem metric_row_accumulates (df : frame) (salesperson : string)
    (sales : odict (odict pyfloat)) (temp : Z) (r : row) (c : string)
    (a : pyfloat) :
  loc df temp = Some r →
  Customer r = CStr c →
  py_float float_of_text (Cost r) = Ok a →
  let key := slice_to (-1) (join "-" (split " " (strip (lower c)))) in
  let values := default [] (od_get sales salesperson) in
  ∃ sales' values',
    metric_row float_of_text df salesperson sales temp = Ok sales'
    ∧ od_get sales' salesperson = Some values'
    ∧ od_get values' key
      = Some (fadd (default (Fin 0%Qc) (od_get values key)) a)
    ∧ (∀ k, k ≠ key → od_get values' k = od_get values k)
    ∧ (∀ sp, sp ≠ salesperson → od_get sales' sp = od_get sales sp).
Proof.
  intros Hloc Hc Ha. cbv zeta. unfold metric_row. rewrite Hloc, Hc, Ha.
  cbn [mbind result_bind]. eexists _, _. split; [done|].
  split; [by rewrite od_get_set, String.eqb_refl|].
  split; [by rewrite od_get_set, String.eqb_refl|]. split.
  - intros k Hk. rewrite od_get_set.
    by destruct (String.eqb_spec k (slice_to (-1)
                   (join "-" (split " " (strip (lower c)))))).
  - intros sp Hsp. rewrite od_get_set.
    by destruct (String.eqb_spec sp salesperson).
Qed.

End MetricFacts.

Lemma metric_row_accumulates_witness :
  let sales := [("John", [("period-to-date", Fin (num 100))])] in
  let key := slice_to (-1) (join "-" (split " " (strip (lower "Period To Date:")))) in
  let values := default [] (od_get sales "John") in
  ∃ sales' values',
    metric_row no_text_floats (dropna john_colon) "John" sales 1 = Ok sales'
    ∧ od_get sales' "John" = Some values'
    ∧ od_get values' key
      = Some (fadd (default (Fin 0%Qc) (od_get values key)) (Fin (num 100)))
    ∧ (∀ k, k ≠ key → od_get values' k = od_get values k)
    ∧ (∀ sp, sp ≠ "John" → od_get sales' sp = od_get sales sp).
Proof.
  cbv zeta.
  apply (metric_row_accumulates no_text_floats (dropna john_colon) "John"
           [("John", [("period-to-date", Fin (num 100))])] 1
           (line "Period To Date:" (CNum (num 100))) "Period To Date:"
           (Fin (num 100)));
    reflexivity.
Defined.

(** *** Totals and table *)











(** *** Expected totals and validation *)

Lemma iloc_tail_short {A} (l : list A) :
  (length l < 4)%nat → (length (iloc_tail l) ≤ 2)%nat.
Proof.
  intros H. unfold iloc_tail. rewrite length_take, length_drop. lia.
Qed.


Lemma summary_rows_missing (ks : list string) (validation : odict entry) k :
  k ∈ ks → od_get validation k = None →
  summary_rows ks validation = Raise KeyError.
Proof.
  intros Hk Hnone. induction ks as [|k' ks IH]; [by apply elem_of_nil in Hk|].
  cbn [summary_rows]. destruct (od_get validation k') as [e|] eqn:He; [|done].
  apply elem_of_cons in Hk as [->|Hk]; [congruence|].
  by rewrite (IH Hk).
Qed.

Section ProcessFacts.
Variable float_of_text : string → option pyfloat.
Variable round3 : Qc → Qc.

Lemma validate_get (expected actual : odict pyfloat) k :
  od_get (validate expected actual) k = None ↔ od_get expected k = None.
Proof.
  unfold validate. induction expected as [|[k' v] expected IH]; [done|].
  rewrite fmap_cons. cbn [od_get fst]. by destruct (String.eqb k k').
Qed.

Lemma expected_loop_keys (kvs : list (string * cell))
    (acc expected : odict pyfloat) k :
  expected_loop float_of_text round3 kvs acc = Ok expected →
  is_Some (od_get expected k) → is_Some (od_get acc k) ∨ k ∈ kvs.*1.
Proof.
  revert acc. induction kvs as [|[k' val] kvs IH]; intros acc;
    cbn [expected_loop].
  - intros [= ->]. by left.
  - destruct (py_float float_of_text val) as [x|]; [|done].
    cbn [mbind result_bind]. intros Hloop Hk.
    destruct (IH _ Hloop Hk) as [Hacc|Hin].
    + rewrite od_get_set in Hacc.
      destruct (String.eqb_spec k k') as [->|_]; [|by left].
      right. rewrite fmap_cons. apply list_elem_of_here.
    + right. rewrite fmap_cons. by apply list_elem_of_further.
Qed.

Lemma short_frame_lacks_prior_year (df : frame) (expected : odict pyfloat) :
  (length df < 4)%nat →
  expected_totals float_of_text round3 df = Ok expected →
  od_get expected "prior-year" = None.
Proof.
  intros Hlen Hexp. destruct (od_get expected "prior-year") as [v|] eqn:Hv;
    [|done].
  unfold expected_totals in Hexp.
  destruct (expected_loop_keys _ _ _ "prior-year" Hexp) as [[? H]|Hin];
    [by eexists|done|].
  pose proof (iloc_tail_short df Hlen) as Hshort.
  destruct (iloc_tail df) as [|v1 [|v2 [|v3 rest]]]; simpl in Hshort; try lia;
    vm_compute in Hin.
  - by apply elem_of_nil in Hin.
  - by apply list_elem_of_singleton in Hin.
  - apply elem_of_cons in Hin as [Hin|Hin]; [done|].
    by apply list_elem_of_singleton in Hin.
Qed.

Lemma process_short_sheet_raises_aux (sheet : list row) :
  (length (dropna sheet) < 4)%nat →
  ∃ e, process_sales_analysis float_of_text round3 sheet = Raise e.
Proof.
  intros Hlen. unfold process_sales_analysis.
  destruct (expected_totals float_of_text round3 (dropna sheet))
    as [expected|e] eqn:Hexp; [|by exists e].
  cbn [mbind result_bind].
  destruct (parse_blocks float_of_text (dropna sheet)) as [sales|e];
    [|by exists e].
  cbn [mbind result_bind]. exists KeyError.
  rewrite (summary_rows_missing keys _ "prior-year"); [done| |].
  - unfold keys. rewrite !elem_of_cons. auto.
  - apply validate_get. by apply (short_frame_lacks_prior_year (dropna sheet)).
Qed.

(** A sheet with fewer than four rows that are not entirely empty never
    gives a result: whatever else happens, the summary has no "prior-year"
    entry to read. *)
Theorem process_short_sheet_raises (sheet : list row) :
  (length (dropna sheet) < 4)%nat →
  ∃ e, process_sales_analysis float_of_text round3 sheet = Raise e.
Proof. apply process_short_sheet_raises_aux. Qed.




End ProcessFacts.

Lemma process_short_sheet_raises_witness :
  ∃ e, process_sales_analysis no_text_floats id
         [line "Customer A" (CNum (num 10)); line "Total" (CNum (num 10))]
       = Raise e.
Proof.
  apply process_short_sheet_raises. vm_compute. lia.
Defined.


End SalesMoreFacts.

(** ** The download slot *)

Module DownloadsFacts.
Import Downloads.

Section SlotFacts.
Variable response : Type.
Variable no_analysis : response.

Lemma handle_quiet (after : list (request response)) (st : slot response) :
  (∀ r, SalesPost response (Some r) ∉ after) →
  foldl (handle response) st after = st.
Proof.
  revert st. induction after as [|rq after IH]; intros st H; [done|].
  cbn [foldl]. rewrite IH.
  - destruct rq as [[r|]|]; try done.
    destruct (H r). apply list_elem_of_here.
  - intros r Hin. apply (H r). by apply list_elem_of_further.
Qed.

(** A download hands back the response of the latest POST that returned:
    downloads and POSTs that raised in between do not change it, and with
    no POST that returned the answer is the 400 response. *)
Theorem download_returns_last_post (before after : list (request response))
    (r : response) :
  (∀ r', SalesPost response (Some r') ∉ after) →
  sales_download response no_analysis
    (run response (before ++ SalesPost response (Some r) :: after)) = r
  ∧ sales_download response no_analysis (run response after) = no_analysis.
Proof.
  intros H. unfold run. rewrite foldl_app. cbn [foldl handle].
  by rewrite !handle_quiet.
Qed.

End SlotFacts.

Lemma download_returns_last_post_witness :
  sales_download nat 400
    (run nat ([SalesPost nat (Some 1)] ++ SalesPost nat (Some 2)
              :: [SalesDownload nat; SalesPost nat None; SalesDownload nat]))
  = 2
  ∧ sales_download nat 400
      (run nat [SalesDownload nat; SalesPost nat None; SalesDownload nat])
    = 400.
Proof.
  apply download_returns_last_post. intros r' Hin.
  repeat (apply elem_of_cons in Hin as [Hin|Hin]; [discriminate Hin|]).
  by apply elem_of_nil in Hin.
Defined.

End DownloadsFacts.
